(** * SmartRouter and UltimateAI: a shallow embedding of the routing logic

    Source files embedded here:
    - [backend/app/core/router.py]      (TaskType, SmartRouter)
    - [backend/app/models/claude_client.py], [groq_client.py],
      [openai_client.py], [gemini_client.py]  (the [generate] methods)
    - [backend/ultimate_ai.py]          (UltimateAI.generate and helpers)

    Conventions.
    - A Python [str] is a [string]; each [ascii] is one code point in
      U+0000..U+00FF (Latin-1), and [len] is [String.length].
    - A Python [float] is an IEEE-754 binary64 number, i.e. [PrimFloat.float],
      so [0.5 + 0.2] below rounds exactly as it does in CPython.
    - A Python [int] is a [Z]. *)

From Stdlib Require Import ZArith List String Ascii Bool Lia PrimFloat.
Import ListNotations.
Set Warnings "-inexact-float".
Local Open Scope string_scope.
Local Open Scope Z_scope.

(** ** Python string primitives *)

Module PyStr.

(** [str.lower] on one Latin-1 code point: A-Z and the accented capitals
    U+00C0..U+00DE (without the multiplication sign U+00D7) move up by 32. *)
Definition lower_char (c : ascii) : ascii :=
  let n := nat_of_ascii c in
  if ((65 <=? n) && (n <=? 90))%nat then ascii_of_nat (n + 32)
  else if ((192 <=? n) && (n <=? 222) && negb (n =? 215))%nat
       then ascii_of_nat (n + 32)
  else c.

Fixpoint lower (s : string) : string :=
  match s with
  | EmptyString => EmptyString
  | String c s' => String (lower_char c) (lower s')
  end.

(** [needle in haystack] for strings: substring search. *)
Fixpoint contains (needle haystack : string) : bool :=
  if String.prefix needle haystack then true
  else match haystack with
       | EmptyString => false
       | String _ rest => contains needle rest
       end.

(** [str.isspace] on one Latin-1 code point. *)
Definition is_space (c : ascii) : bool :=
  let n := nat_of_ascii c in
  (((9 <=? n) && (n <=? 13)) || ((28 <=? n) && (n <=? 32))
   || (n =? 133) || (n =? 160))%nat.

(** [len(s.split())]: the number of maximal runs of non-space characters.
    [in_word] tells whether the previous character belonged to a word. *)
Fixpoint count_words (in_word : bool) (s : string) : nat :=
  match s with
  | EmptyString => 0%nat
  | String c rest =>
      if is_space c then count_words false rest
      else if in_word then count_words true rest
      else S (count_words true rest)
  end.

Definition split_len (s : string) : Z := Z.of_nat (count_words false s).

Definition len (s : string) : Z := Z.of_nat (String.length s).

(** [any(k in s for k in keywords)] *)
Definition any_in (keywords : list string) (s : string) : bool :=
  existsb (fun k => contains k s) keywords.

Definition nl : string := String (ascii_of_nat 10) EmptyString.

End PyStr.

(** ** Exceptions and the state-and-exception monad

    Every [except] clause of the embedded code is [except Exception], and the
    only thing a handler reads from the exception is [str(e)].  The model
    covers instances of [Exception]; interpreter signals that derive from
    [BaseException] only (such as [KeyboardInterrupt]) are not represented. *)

Inductive exn : Type :=
| ValueError (msg : string)
| KeyError (key : string)
| IndexError (msg : string)
| JSONDecodeError (msg : string)
| RecursionError (msg : string)
| Exception (msg : string).

(** [str(e)]; a [KeyError] prints the [repr] of its key. *)
Definition str_exn (e : exn) : string :=
  match e with
  | ValueError m | IndexError m | JSONDecodeError m | RecursionError m
  | Exception m => m
  | KeyError k => "'" ++ k ++ "'"
  end.

Inductive res (A : Type) : Type :=
| Ret (a : A)
| Raise (e : exn).
Arguments Ret {A} a.
Arguments Raise {A} e.

(** Computations over a world [W] (the remote services) that may raise. *)
Definition M (W A : Type) : Type := W -> res A * W.

Definition ret {W A} (a : A) : M W A := fun w => (Ret a, w).

Definition raise {W A} (e : exn) : M W A := fun w => (Raise e, w).

Definition bind {W A B} (m : M W A) (k : A -> M W B) : M W B :=
  fun w => match m w with
           | (Ret a, w') => k a w'
           | (Raise e, w') => (Raise e, w')
           end.

(** [try: m  except Exception as e: h e] *)
Definition try_except {W A} (m : M W A) (h : exn -> M W A) : M W A :=
  fun w => match m w with
           | (Ret a, w') => (Ret a, w')
           | (Raise e, w') => h e w'
           end.

Declare Scope py_scope.
Delimit Scope py_scope with py.
Notation "x <- m ;; k" := (bind m (fun x => k))
  (at level 61, m at next level, right associativity) : py_scope.

(** [d[key]] on a dict field that may be absent. *)
Definition getitem {W A} (key : string) (field : option A) : M W A :=
  match field with
  | Some v => ret v
  | None => raise (KeyError key)
  end.

(** [d.get(key, default)] *)
Definition get_default {A} (field : option A) (default : A) : A :=
  match field with Some v => v | None => default end.

(** ** TaskType *)

Inductive TaskType : Type :=
| CREATIVE_UI | CODE_GENERATION | ARCHITECTURE | DEBUGGING | FAST_SIMPLE
| MULTIMODAL | MODELING_3D | PLANNING | REFACTORING.

Definition TaskType_value (t : TaskType) : string :=
  match t with
  | CREATIVE_UI => "creative_ui"
  | CODE_GENERATION => "code_generation"
  | ARCHITECTURE => "architecture"
  | DEBUGGING => "debugging"
  | FAST_SIMPLE => "fast_simple"
  | MULTIMODAL => "multimodal"
  | MODELING_3D => "3d_modeling"
  | PLANNING => "planning"
  | REFACTORING => "refactoring"
  end.

Definition all_task_types : list TaskType :=
  [CREATIVE_UI; CODE_GENERATION; ARCHITECTURE; DEBUGGING; FAST_SIMPLE;
   MULTIMODAL; MODELING_3D; PLANNING; REFACTORING].

(** ** SmartRouter.classify_task *)

Module Keywords.
Definition creative_ui : list string :=
  ["design"; "ui"; "ux"; "interface"; "layout"; "styling";
   "beautiful"; "modern"; "responsive"; "frontend"].
Definition modeling_3d : list string :=
  ["3d"; "blender"; "unity"; "model"; "animation"; "game"].
Definition multimodal : list string :=
  ["image"; "picture"; "visual"; "screenshot"; "diagram"].
Definition architecture : list string :=
  ["architecture"; "structure"; "design pattern"; "scalable";
   "system design"; "database schema"].
Definition debugging : list string :=
  ["debug"; "fix"; "error"; "bug"; "issue"; "problem";
   "not working"; "broken"].
Definition planning : list string :=
  ["plan"; "breakdown"; "steps"; "how to"; "implement";
   "build"; "create project"].
Definition refactoring : list string :=
  ["refactor"; "improve"; "optimize"; "clean"; "rewrite"].
Definition fast_simple : list string :=
  ["simple"; "basic"; "quick"; "small"].
End Keywords.

Definition classify_task (prompt : string) : TaskType :=
  let prompt_lower := PyStr.lower prompt in
  if PyStr.any_in Keywords.creative_ui prompt_lower then CREATIVE_UI
  else if PyStr.any_in Keywords.modeling_3d prompt_lower then MODELING_3D
  else if PyStr.any_in Keywords.multimodal prompt_lower then MULTIMODAL
  else if PyStr.any_in Keywords.architecture prompt_lower then ARCHITECTURE
  else if PyStr.any_in Keywords.debugging prompt_lower then DEBUGGING
  else if PyStr.any_in Keywords.planning prompt_lower then PLANNING
  else if PyStr.any_in Keywords.refactoring prompt_lower then REFACTORING
  else if (PyStr.split_len prompt <? 20)
          && PyStr.any_in Keywords.fast_simple prompt_lower then FAST_SIMPLE
  else CODE_GENERATION.

(** The classifier as the specification words it: a priority table of
    (category, keyword set, extra condition on the raw prompt), scanned in
    order; the first row that matches wins, and no match gives the default. *)
Definition priority_table : list (TaskType * list string * (string -> bool)) :=
  [ (CREATIVE_UI, Keywords.creative_ui, fun _ => true);
    (MODELING_3D, Keywords.modeling_3d, fun _ => true);
    (MULTIMODAL,  Keywords.multimodal,  fun _ => true);
    (ARCHITECTURE, Keywords.architecture, fun _ => true);
    (DEBUGGING,   Keywords.debugging,   fun _ => true);
    (PLANNING,    Keywords.planning,    fun _ => true);
    (REFACTORING, Keywords.refactoring, fun _ => true);
    (FAST_SIMPLE, Keywords.fast_simple, fun p => PyStr.split_len p <? 20) ].

Definition row_matches (prompt : string)
    (row : TaskType * list string * (string -> bool)) : bool :=
  let '(_, keywords, extra) := row in
  extra prompt && PyStr.any_in keywords (PyStr.lower prompt).

Definition classify_spec (prompt : string) : TaskType :=
  match find (row_matches prompt) priority_table with
  | Some (category, _, _) => category
  | None => CODE_GENERATION
  end.

(** ** Generation results (the dicts returned by the adapters) *)

(** The [usage] dict: token counters by name. *)
Definition Usage := list (string * Z).

(** A result dict.  [success] is set by every producer; any other field is
    [None] when its key is absent from the dict. *)
Record GenResult := mkGenResult {
  g_success : bool;
  g_content : option string;
  g_model   : option string;
  g_usage   : option Usage;
  g_error   : option string
}.

(** The two shapes the adapters build. *)
Definition gen_ok (content model : string) (usage : Usage) : GenResult :=
  mkGenResult true (Some content) (Some model) (Some usage) None.

Definition gen_fail (error model : string) : GenResult :=
  mkGenResult false None (Some model) None (Some error).

(** ** SmartRouter.quality_check *)

Definition explanation_words : list string :=
  ["explain"; "because"; "reason"; "here's"].

(** Python's two-argument [min]: the second wins only if strictly smaller. *)
Definition py_min (a b : float) : float :=
  if (b <? a)%float then b else a.

Definition quality_check (result : GenResult) : float :=
  if negb (g_success result) then 0.0%float
  else
    let content := get_default (g_content result) "" in
    let quality_score := 0.5%float in
    let quality_score :=
      if (100 <=? PyStr.len content) && (PyStr.len content <=? 2000)
      then (quality_score + 0.2)%float else quality_score in
    let quality_score :=
      if PyStr.contains "```" content
      then (quality_score + 0.2)%float else quality_score in
    let quality_score :=
      if PyStr.any_in explanation_words (PyStr.lower content)
      then (quality_score + 0.1)%float else quality_score in
    py_min quality_score 1.0%float.

(** ** SmartRouter._enhance_prompt *)

Module Enhancers.
Definition creative_ui : string := "
            Focus on creating modern, beautiful, and responsive UI/UX designs.
            Use contemporary design patterns and best practices.
            Include accessibility considerations.
            ".
Definition code_generation : string := "
            Write clean, maintainable, and well-documented code.
            Follow best practices and design patterns.
            Include error handling where appropriate.
            ".
Definition architecture : string := "
            Focus on scalable, maintainable architecture.
            Consider performance, security, and extensibility.
            Explain your architectural decisions.
            ".
Definition debugging : string := "
            Analyze the problem systematically.
            Provide clear explanations of the root cause.
            Offer multiple solutions when applicable.
            ".
Definition planning : string := "
            Break down the task into clear, actionable steps.
            Consider dependencies and potential challenges.
            Provide a realistic implementation roadmap.
            ".
End Enhancers.

(** The [enhancers] dict: five of the nine task types have an entry. *)
Definition enhancers (t : TaskType) : option string :=
  match t with
  | CREATIVE_UI => Some Enhancers.creative_ui
  | CODE_GENERATION => Some Enhancers.code_generation
  | ARCHITECTURE => Some Enhancers.architecture
  | DEBUGGING => Some Enhancers.debugging
  | PLANNING => Some Enhancers.planning
  | FAST_SIMPLE | MULTIMODAL | MODELING_3D | REFACTORING => None
  end.

Definition _enhance_prompt (prompt : string) (task_type : TaskType) : string :=
  let enhancer := get_default (enhancers task_type) "" in
  prompt ++ PyStr.nl ++ PyStr.nl ++ enhancer.

(** ** Provider adapters

    The remote SDK entry points are oracles over the world [W]: a call either
    returns a response or raises, and may change the world. *)

Section Adapters.

Variable W : Type.

(** [seq[0]] *)
Definition index0 {A} (l : list A) : M W A :=
  match l with
  | x :: _ => ret x
  | [] => raise (IndexError "list index out of range")
  end.

(** What [client.messages.create] returns: the text blocks and the usage. *)
Record ClaudeResponse := {
  cr_content : list string;
  cr_input_tokens : Z;
  cr_output_tokens : Z
}.

(** What [client.chat.completions.create] returns (OpenAI and Groq): the
    message contents of the choices and the usage. *)
Record ChatCompletion := {
  cc_choices : list string;
  cc_prompt_tokens : Z;
  cc_completion_tokens : Z;
  cc_total_tokens : Z
}.

(** Oracle signatures: model, max_tokens, temperature, prompt. *)
Definition MessagesCreate := string -> Z -> float -> string -> M W ClaudeResponse.
Definition ChatCreate := string -> Z -> float -> string -> M W ChatCompletion.
(** Gemini: prompt, max_output_tokens, temperature; yields [response.text]. *)
Definition GenerateContent := string -> Z -> float -> M W string.

Record ClaudeClient := { claude_client : MessagesCreate }.
Record OpenAIClient := { openai_client : ChatCreate }.
(** [self.client] is [None] when [GROQ_API_KEY] is not set. *)
Record GroqClient := { groq_client : option ChatCreate }.
(** [self.model] is [None] when [GEMINI_API_KEY] is not set. *)
Record GeminiClient := { gemini_model : option GenerateContent }.

Definition ClaudeClient_generate (self : ClaudeClient) (prompt : string)
    (max_tokens : Z) (temperature : float) (model : string) : M W GenResult :=
  try_except
    (response <- claude_client self model max_tokens temperature prompt ;;
     text <- index0 (cr_content response) ;;
     ret (mkGenResult true (Some text) (Some model)
            (Some [("input_tokens", cr_input_tokens response);
                   ("output_tokens", cr_output_tokens response)])
            None))%py
    (fun e => ret (mkGenResult false None (Some model) None
                     (Some (str_exn e)))).

Definition chat_usage (response : ChatCompletion) : Usage :=
  [("prompt_tokens", cc_prompt_tokens response);
   ("completion_tokens", cc_completion_tokens response);
   ("total_tokens", cc_total_tokens response)].

Definition OpenAIClient_generate (self : OpenAIClient) (prompt : string)
    (max_tokens : Z) (temperature : float) (model : string) : M W GenResult :=
  try_except
    (response <- openai_client self model max_tokens temperature prompt ;;
     text <- index0 (cc_choices response) ;;
     ret (mkGenResult true (Some text) (Some model)
            (Some (chat_usage response)) None))%py
    (fun e => ret (mkGenResult false None (Some model) None
                     (Some (str_exn e)))).

Definition GroqClient_generate (self : GroqClient) (prompt : string)
    (max_tokens : Z) (temperature : float) (model : string) : M W GenResult :=
  match groq_client self with
  | None =>
      ret (mkGenResult false None (Some model) None
             (Some "Groq API key not configured"))
  | Some create =>
      try_except
        (response <- create model max_tokens temperature prompt ;;
         text <- index0 (cc_choices response) ;;
         ret (mkGenResult true (Some text) (Some model)
                (Some (chat_usage response)) None))%py
        (fun e => ret (mkGenResult false None (Some model) None
                         (Some (str_exn e))))
  end.

Definition GeminiClient_generate (self : GeminiClient) (prompt : string)
    (max_tokens : Z) (temperature : float) : M W GenResult :=
  match gemini_model self with
  | None =>
      ret (mkGenResult false None (Some "gemini-pro") None
             (Some "Gemini API key not configured"))
  | Some generate_content =>
      try_except
        (text <- generate_content prompt max_tokens temperature ;;
         ret (mkGenResult true (Some text) (Some "gemini-pro")
                (Some []) None))%py
        (fun e => ret (mkGenResult false None (Some "gemini-pro") None
                         (Some (str_exn e))))
  end.

(** Default keyword arguments of the four [generate] methods. *)
Definition default_max_tokens : Z := 4000.
Definition default_temperature : float := 0.7%float.
Definition claude_default_model : string := "claude-3-sonnet-20240229".
Definition openai_default_model : string := "gpt-4-turbo-preview".
Definition groq_default_model : string := "mixtral-8x7b-32768".

End Adapters.

Arguments index0 {W A} l.
Arguments claude_client {W}.
Arguments openai_client {W}.
Arguments groq_client {W}.
Arguments gemini_model {W}.
Arguments ClaudeClient_generate {W} self prompt max_tokens temperature model.
Arguments OpenAIClient_generate {W} self prompt max_tokens temperature model.
Arguments GroqClient_generate {W} self prompt max_tokens temperature model.
Arguments GeminiClient_generate {W} self prompt max_tokens temperature.

(** ** SmartRouter.route_task *)

(** The dict returned by [route_task]; a field is [None] when its key is
    absent. *)
Record RouteOutcome := mkRouteOutcome {
  o_success : bool;
  o_content : option string;
  o_model : option string;
  o_task_type : string;
  o_quality_score : option float;
  o_attempts : Z;
  o_usage : option Usage;
  o_error : option string
}.

(** One invocation of [_call_model], as a test double would record it. *)
Record CallEvent := mkCallEvent {
  ev_attempt : Z;
  ev_model : string;
  ev_result : res GenResult
}.

(** How one iteration of the inner loop ends. *)
Inductive flow : Type :=
| Continue (last_error : option string)
| Return (outcome : RouteOutcome).

(** [f"{last_error}"]: [None] prints as the word None. *)
Definition fmt_opt (s : option string) : string :=
  match s with Some x => x | None => "None" end.

(** [range(n)] *)
Definition range (n : Z) : list Z := map Z.of_nat (seq 0 (Z.to_nat n)).

Section Router.

Variable W : Type.

(** The [generate] capability of a client, called with the prompt only. *)
Definition Adapter := string -> M W GenResult.

Record SmartRouter := {
  claude : Adapter;
  openai : Adapter;
  gemini : Adapter;
  groq : Adapter;
  model_preferences : TaskType -> option (list string)
}.

(** The preference table built by [__init__]. *)
Definition default_model_preferences (t : TaskType) : option (list string) :=
  Some match t with
       | CREATIVE_UI => ["claude"; "gpt-4"; "gemini"]
       | CODE_GENERATION => ["claude"; "gpt-4"; "gemini"]
       | ARCHITECTURE => ["claude"; "gpt-4"]
       | DEBUGGING => ["gpt-4"; "claude"]
       | FAST_SIMPLE => ["groq"; "claude"]
       | MULTIMODAL => ["gemini"; "gpt-4"]
       | MODELING_3D => ["claude"; "gpt-4"]
       | PLANNING => ["claude"; "gpt-4"]
       | REFACTORING => ["claude"; "gpt-4"]
       end.

Definition _call_model (self : SmartRouter) (model_name prompt : string)
    (task_type : TaskType) : M W GenResult :=
  let enhanced_prompt := _enhance_prompt prompt task_type in
  if (model_name =? "claude")%string then claude self enhanced_prompt
  else if (model_name =? "gpt-4")%string then openai self enhanced_prompt
  else if (model_name =? "gemini")%string then gemini self enhanced_prompt
  else if (model_name =? "groq")%string then groq self enhanced_prompt
  else raise (ValueError ("Unknown model: " ++ model_name)).

(** The success dict; [result["content"]] and [result["model"]] raise
    [KeyError] when the key is absent, in that order. *)
Definition success_outcome (result : GenResult) (task_type : TaskType)
    (quality : float) (attempt : Z) : res RouteOutcome :=
  match g_content result with
  | None => Raise (KeyError "content")
  | Some content =>
      match g_model result with
      | None => Raise (KeyError "model")
      | Some model =>
          Ret (mkRouteOutcome true (Some content) (Some model)
                 (TaskType_value task_type) (Some quality) (attempt + 1)
                 (Some (get_default (g_usage result) [])) None)
      end
  end.

(** The statements of the [try] block after the call has returned. *)
Definition on_result (result : GenResult) (task_type : TaskType)
    (attempt max_attempts : Z) (last_error : option string) : res flow :=
  if g_success result then
    let quality := quality_check result in
    if (0.7 <=? quality)%float then
      match success_outcome result task_type quality attempt with
      | Ret o => Ret (Return o)
      | Raise e => Raise e
      end
    else if attempt <? max_attempts - 1 then Ret (Continue last_error)
    else
      match success_outcome result task_type quality attempt with
      | Ret o => Ret (Return o)
      | Raise e => Raise e
      end
  else Ret (Continue (Some (get_default (g_error result) "Unknown error"))).

(** The [try] block with its handler:
    [except Exception as e: last_error = str(e); continue]. *)
Definition try_model (called : res GenResult) (task_type : TaskType)
    (attempt max_attempts : Z) (last_error : option string) : flow :=
  let body :=
    match called with
    | Ret result => on_result result task_type attempt max_attempts last_error
    | Raise e => Raise e
    end in
  match body with
  | Ret f => f
  | Raise e => Continue (Some (str_exn e))
  end.

(** [for model_name in preferred_models: ...], with the calls it made. *)
Fixpoint for_models (self : SmartRouter) (prompt : string)
    (task_type : TaskType) (attempt max_attempts : Z)
    (models : list string) (last_error : option string) (w : W)
  : flow * W * list CallEvent :=
  match models with
  | [] => (Continue last_error, w, [])
  | model_name :: rest =>
      let '(called, w1) := _call_model self model_name prompt task_type w in
      let ev := mkCallEvent attempt model_name called in
      match try_model called task_type attempt max_attempts last_error with
      | Return o => (Return o, w1, [ev])
      | Continue last_error' =>
          let '(f, w2, log) :=
            for_models self prompt task_type attempt max_attempts
                       rest last_error' w1 in
          (f, w2, ev :: log)
      end
  end.

(** [for attempt in range(max_attempts): ...] *)
Fixpoint for_attempts (self : SmartRouter) (prompt : string)
    (task_type : TaskType) (max_attempts : Z) (preferred_models : list string)
    (attempts : list Z) (last_error : option string) (w : W)
  : flow * W * list CallEvent :=
  match attempts with
  | [] => (Continue last_error, w, [])
  | attempt :: later =>
      match for_models self prompt task_type attempt max_attempts
                       preferred_models last_error w with
      | (Return o, w1, log) => (Return o, w1, log)
      | (Continue last_error', w1, log) =>
          let '(f, w2, log') :=
            for_attempts self prompt task_type max_attempts preferred_models
                         later last_error' w1 in
          (f, w2, (log ++ log')%list)
      end
  end.

Definition failure_outcome (task_type : TaskType) (max_attempts : Z)
    (last_error : option string) : RouteOutcome :=
  mkRouteOutcome false None None (TaskType_value task_type) None max_attempts
    None (Some ("All models failed. Last error: " ++ fmt_opt last_error)).

Definition route_task (self : SmartRouter) (prompt : string)
    (task_type : option TaskType) (max_attempts : Z) (w : W)
  : RouteOutcome * W * list CallEvent :=
  let task_type :=
    match task_type with
    | Some t => t
    | None => classify_task prompt
    end in
  let preferred_models :=
    get_default (model_preferences self task_type) ["claude"; "gpt-4"] in
  match for_attempts self prompt task_type max_attempts preferred_models
                     (range max_attempts) None w with
  | (Return o, w1, log) => (o, w1, log)
  | (Continue last_error, w1, log) =>
      (failure_outcome task_type max_attempts last_error, w1, log)
  end.

End Router.

Arguments claude {W}.
Arguments openai {W}.
Arguments gemini {W}.
Arguments groq {W}.
Arguments model_preferences {W}.
Arguments _call_model {W}.
Arguments for_models {W}.
Arguments for_attempts {W}.
Arguments route_task {W}.

(** ** UltimateAI (backend/ultimate_ai.py) *)

Module Ultimate.

(** Truthiness of a Python [str]. *)
Definition truthy (s : string) : bool :=
  match s with EmptyString => false | String _ _ => true end.

(** [x in keys] *)
Definition mem (x : string) (keys : list string) : bool :=
  existsb (String.eqb x) keys.

(** The dict returned by [generate]; [text] is [None] when the provider
    helper fell through without a [return]. *)
Record Answer := mkAnswer {
  text : option string;
  provider : string;
  cost : float
}.

(** What the interpreter raises for a call that would nest deeper than its
    recursion limit allows.  The text after the base message varies with the
    place where the limit is hit; the properties below are stated for any
    message. *)
Definition recursion_error : exn :=
  RecursionError "maximum recursion depth exceeded".

Section UltimateAI.

Variable W : Type.

(** The SDK handles behind the configured clients, as oracles. *)
Record Remotes := {
  (** [free_clients["groq"].chat.completions.create(messages=...)], up to
      [response.choices[0].message.content] *)
  groq_create : list (string * string) -> M W string;
  (** [free_clients["gemini"].generate_content(full_prompt)], up to
      [response.text] *)
  gemini_generate_content : string -> M W string;
  (** the browser session of a web client: log-in if needed, then
      [client.send_prompt(full_prompt)] *)
  web_send_prompt : string -> string -> M W string
}.

(** The object: the keys of its two client dicts in insertion order, its
    flags and its call counters. *)
Record UltimateAI := mkUltimateAI {
  remotes : Remotes;
  prefer_free : bool;
  free_clients : list string;
  web_clients : list string;
  free_calls : Z;
  web_calls : Z
}.

Definition simple_tasks : list string := ["code"; "general"; "review"].
Definition complex_tasks : list string :=
  ["architecture"; "planning"; "complex_code"].

Definition _choose_provider (self : UltimateAI) (task_type : string)
  : res string :=
  let default :=
    match free_clients self with
    | k :: _ => Ret k
    | [] =>
        match web_clients self with
        | k :: _ => Ret k
        | [] => Raise (Exception "No AI providers available")
        end
    end in
  let complex :=
    if mem task_type complex_tasks then
      if mem "claude_web" (web_clients self) then Ret "claude_web"
      else if mem "chatgpt_web" (web_clients self) then Ret "chatgpt_web"
      else default
    else default in
  if mem task_type simple_tasks && prefer_free self then
    if mem "groq" (free_clients self) then Ret "groq"
    else if mem "gemini" (free_clients self) then Ret "gemini"
    else complex
  else complex.

Definition _get_fallback (self : UltimateAI) (failed_provider : string)
  : option string :=
  let all_providers := (free_clients self ++ web_clients self)%list in
  let all_providers :=
    filter (fun p => negb (p =? failed_provider)%string) all_providers in
  match all_providers with
  | p :: _ => Some p
  | [] => None
  end.

Definition full_prompt (system_prompt prompt : string) : string :=
  if truthy system_prompt
  then system_prompt ++ PyStr.nl ++ PyStr.nl ++ prompt
  else prompt.

Definition _call_free_ai (self : UltimateAI)
    (provider prompt system_prompt : string) : M W (option string) :=
  if (provider =? "groq")%string then
    let messages :=
      ((if truthy system_prompt then [("system", system_prompt)] else [])
       ++ [("user", prompt)])%list in
    if mem "groq" (free_clients self) then
      (content <- groq_create (remotes self) messages ;; ret (Some content))%py
    else raise (KeyError "groq")
  else if (provider =? "gemini")%string then
    if mem "gemini" (free_clients self) then
      (content <- gemini_generate_content (remotes self)
                    (full_prompt system_prompt prompt) ;;
       ret (Some content))%py
    else raise (KeyError "gemini")
  else ret None.

Definition _call_web_interface (self : UltimateAI)
    (provider prompt system_prompt : string) : M W string :=
  if mem provider (web_clients self) then
    web_send_prompt (remotes self) provider (full_prompt system_prompt prompt)
  else raise (KeyError provider).

Definition count_free (self : UltimateAI) : UltimateAI :=
  mkUltimateAI (remotes self) (prefer_free self) (free_clients self)
    (web_clients self) (free_calls self + 1) (web_calls self).

Definition count_web (self : UltimateAI) : UltimateAI :=
  mkUltimateAI (remotes self) (prefer_free self) (free_clients self)
    (web_clients self) (free_calls self) (web_calls self + 1).

(** The [try] block of [generate]: the answer or the exception, the object
    afterwards, the world afterwards, and the providers it invoked. *)
Definition try_provider (self : UltimateAI)
    (provider prompt system_prompt : string) (w : W)
  : res Answer * UltimateAI * W * list string :=
  if mem provider (free_clients self) then
    match _call_free_ai self provider prompt system_prompt w with
    | (Ret result, w1) =>
        (Ret (mkAnswer result provider 0.0%float), count_free self, w1,
         [provider])
    | (Raise e, w1) => (Raise e, self, w1, [provider])
    end
  else if mem provider (web_clients self) then
    match _call_web_interface self provider prompt system_prompt w with
    | (Ret result, w1) =>
        (Ret (mkAnswer (Some result) provider 0.0%float), count_web self, w1,
         [provider])
    | (Raise e, w1) => (Raise e, self, w1, [provider])
    end
  else (Raise (Exception "No AI provider available"), self, w, []).

(** [generate].  Every retry is a nested call
    [return self.generate(prompt, system_prompt, task_type)], and the
    interpreter bounds the nesting: [depth] is the number of nested calls of
    [generate] its recursion limit still has room for.  A call beyond that
    raises [RecursionError] before it reaches a provider; the retry stands in
    the [except] clause of the caller, outside its [try] block, so the error
    is not caught there and goes up through every level.  An exception of
    the provider call itself, a [RecursionError] included, is raised inside
    the [try] block and is part of what [try_provider] returns. *)
Fixpoint generate (depth : nat) (self : UltimateAI)
    (prompt system_prompt task_type : string) (w : W)
  : res Answer * UltimateAI * W * list string :=
  match depth with
  | O => (Raise recursion_error, self, w, [])
  | S depth' =>
      match _choose_provider self task_type with
      | Raise e => (Raise e, self, w, [])
      | Ret provider =>
          match try_provider self provider prompt system_prompt w with
          | (Ret answer, self1, w1, calls) => (Ret answer, self1, w1, calls)
          | (Raise e, self1, w1, calls) =>
              let fallback := _get_fallback self1 provider in
              if match fallback with Some f => truthy f | None => false end
              then
                let '(r, self2, w2, calls') :=
                  generate depth' self1 prompt system_prompt task_type w1 in
                (r, self2, w2, (calls ++ calls')%list)
              else
                (Raise (Exception "All AI providers failed"),
                 self1, w1, calls)
          end
      end
  end.

End UltimateAI.

Arguments remotes {W}.
Arguments prefer_free {W}.
Arguments free_clients {W}.
Arguments web_clients {W}.
Arguments free_calls {W}.
Arguments web_calls {W}.
Arguments _choose_provider {W}.
Arguments _get_fallback {W}.
Arguments _call_free_ai {W}.
Arguments _call_web_interface {W}.
Arguments try_provider {W}.
Arguments generate {W}.

End Ultimate.

(** ** Specification-level definitions for the scorer *)

(** The score of a successful result by the three tests, as binary64
    numbers (shortest decimal forms). *)
Definition score_table (in_range fenced explained : bool) : float :=
  match in_range, fenced, explained with
  | false, false, false => 0.5
  | false, false, true => 0.6
  | true, false, false | false, true, false => 0.7
  | true, false, true | false, true, true => 0.7999999999999999
  | true, true, false => 0.8999999999999999
  | true, true, true => 0.9999999999999999
  end%float.

Definition in_length_range (content : string) : bool :=
  (100 <=? PyStr.len content) && (PyStr.len content <=? 2000).
Definition fenced (content : string) : bool := PyStr.contains "```" content.
Definition explained (content : string) : bool :=
  PyStr.any_in explanation_words (PyStr.lower content).

(** A 150-character content with a fenced block marker and the word
    because. *)
Definition sample_content : string :=
  "```because" ++ string_of_list_ascii (repeat "x"%char 140).

Definition sample_result : GenResult := gen_ok sample_content "m" [].

(** ** Specification-level definitions for the adapters *)

Section AdapterContract.

Variable W : Type.

(** A [generate] call honours the adapter contract for model id [model]: from
    every world it returns a result dict, of the success shape or of the
    failure shape, carrying [model]. *)
Definition honours_contract (call : M W GenResult) (model : string) : Prop :=
  forall w, exists g w',
    call w = (Ret g, w')
    /\ ((exists content usage, g = gen_ok content model usage)
        \/ (exists error, g = gen_fail error model)).

End AdapterContract.

Arguments honours_contract {W}.

(** ** Specification-level definitions for the router *)

Section RouterSpec.

Variable W : Type.
Variable self : SmartRouter W.
Variable prompt : string.
Variable task_type : TaskType.
Variable max_attempts : Z.

(** The branch of the [try] block that builds a success dict is taken: the
    result is successful and either scores at least 0.7 or belongs to the
    last attempt. *)
Definition reaches_return (attempt : Z) (r : GenResult) : bool :=
  g_success r
  && ((0.7 <=? quality_check r)%float || negb (attempt <? max_attempts - 1)).

(** The outcome a recorded call makes [route_task] return, if any. *)
Definition accept_outcome (ev : CallEvent) : option RouteOutcome :=
  match ev_result ev with
  | Ret r =>
      if reaches_return (ev_attempt ev) r then
        match success_outcome r task_type (quality_check r) (ev_attempt ev) with
        | Ret o => Some o
        | Raise _ => None
        end
      else None
  | Raise _ => None
  end.

(** The error text a recorded call stores in [last_error], if any. *)
Definition recorded_error (ev : CallEvent) : option string :=
  match ev_result ev with
  | Raise e => Some (str_exn e)
  | Ret r =>
      if g_success r then
        if reaches_return (ev_attempt ev) r then
          match success_outcome r task_type (quality_check r) (ev_attempt ev)
          with
          | Ret _ => None
          | Raise e => Some (str_exn e)
          end
        else None
      else Some (get_default (g_error r) "Unknown error")
  end.

Definition update_error (last_error : option string) (ev : CallEvent)
  : option string :=
  match recorded_error ev with
  | Some e => Some e
  | None => last_error
  end.

(** [last_error] after the calls of a log. *)
Definition last_error_after (log : list CallEvent) (init : option string)
  : option string :=
  fold_left update_error log init.

(** The log is what [_call_model] answered, call after call, from world [w]
    to world [w']. *)
Inductive calls_from : W -> list CallEvent -> W -> Prop :=
| calls_nil w : calls_from w [] w
| calls_cons w ev w1 log w2 :
    _call_model self (ev_model ev) prompt task_type w = (ev_result ev, w1) ->
    calls_from w1 log w2 ->
    calls_from w (ev :: log) w2.

Definition rejected (ev : CallEvent) : Prop := accept_outcome ev = None.

(** What a run of the loops looks like: either it stops at the first call
    that is accepted, or no call is accepted. *)
Definition stops_at_first_accepted (f : flow) (log : list CallEvent)
    (init : option string) : Prop :=
  match f with
  | Return o =>
      exists pre ev,
        log = (pre ++ [ev])%list /\ Forall rejected pre
        /\ accept_outcome ev = Some o
  | Continue last_error =>
      Forall rejected log /\ last_error = last_error_after log init
  end.

(** The (attempt, provider) pairs of the complete passes over the list. *)
Definition full_schedule (attempts : list Z) (models : list string)
  : list (Z * string) :=
  list_prod attempts models.

Definition schedule_of (log : list CallEvent) : list (Z * string) :=
  map (fun ev => (ev_attempt ev, ev_model ev)) log.

(** One full pass over the provider list: the answer of every provider,
    each called in list order from the world its predecessor left. *)
Fixpoint full_pass (models : list string) (w : W) : list (res GenResult) :=
  match models with
  | [] => []
  | model_name :: rest =>
      let '(called, w1) := _call_model self model_name prompt task_type w in
      called :: full_pass rest w1
  end.

End RouterSpec.

Arguments calls_from {W}.
Arguments full_pass {W}.

(** The two inputs [route_task] computes before its loops. *)
Definition resolved_task_type (prompt : string) (task_type : option TaskType)
  : TaskType :=
  match task_type with
  | Some t => t
  | None => classify_task prompt
  end.

Definition preferred_models {W} (self : SmartRouter W) (task_type : TaskType)
  : list string :=
  get_default (model_preferences self task_type) ["claude"; "gpt-4"].

(** The parts of a run of [route_task]: the dict it returns and the calls it
    made. *)
Definition returned {W} (run : RouteOutcome * W * list CallEvent)
  : RouteOutcome := fst (fst run).

Definition calls_made {W} (run : RouteOutcome * W * list CallEvent)
  : list CallEvent := snd run.

(** The success dict built from result [r] during attempt [attempt]. *)
Definition success_dict (r : GenResult) (task_type : TaskType) (attempt : Z)
    (content model : string) : RouteOutcome :=
  mkRouteOutcome true (Some content) (Some model) (TaskType_value task_type)
    (Some (quality_check r)) (attempt + 1) (Some (get_default (g_usage r) []))
    None.

(** The score of an answer; an exception scores like a failure. *)
Definition answer_score (called : res GenResult) : float :=
  match called with
  | Ret r => quality_check r
  | Raise _ => 0.0%float
  end.

(** An adapter call that reported failure: a failure dict or an exception. *)
Definition call_failed (ev : CallEvent) : Prop :=
  match ev_result ev with
  | Ret r => g_success r = false
  | Raise _ => True
  end.

(** ** Test doubles: scripted adapters *)

Module Doubles.

(** The world of the doubles: what providers A and B will still answer, in
    order. *)
Record World := mkWorld {
  script_a : list (res GenResult);
  script_b : list (res GenResult)
}.

Definition adapter_a : Adapter World :=
  fun _ w =>
    match script_a w with
    | r :: rest => (r, mkWorld rest (script_b w))
    | [] => (Raise (Exception "A has nothing scripted"), w)
    end.

Definition adapter_b : Adapter World :=
  fun _ w =>
    match script_b w with
    | r :: rest => (r, mkWorld (script_a w) rest)
    | [] => (Raise (Exception "B must not be called"), w)
    end.

Definition not_under_test : Adapter World :=
  fun _ w => (Raise (Exception "not under test"), w).

(** A router whose claude is A and whose gpt-4 is B: the preference list of
    the architecture task type is then [A, B]. *)
Definition router : SmartRouter World :=
  {| claude := adapter_a;
     openai := adapter_b;
     gemini := not_under_test;
     groq := not_under_test;
     model_preferences := default_model_preferences |}.

Definition ok (content : string) : res GenResult :=
  Ret (gen_ok content "test-model" []).

Definition failing (error : string) : res GenResult :=
  Ret (gen_fail error "test-model").

(** A content that scores 0.5 + 0.2 + 0.2: long enough and fenced. *)
Definition good_content : string :=
  "```" ++ string_of_list_ascii (repeat "x"%char 120).

(** A returns a good answer at once; B has nothing scripted and raises if it
    is invoked. *)
Definition good_first : World := mkWorld [ok good_content] [].

(** A and B both answer with a low score; B's answer scores higher. *)
Definition low_then_better : World := mkWorld [ok "ok"] [ok "because"].

(** A is down and B answers with a low score. *)
Definition down_then_low : World := mkWorld [failing "A is down"] [ok "ok"].

(** A and B report an error on each of their two calls. *)
Definition both_down : World :=
  mkWorld [failing "A error 1"; failing "A error 2"]
          [failing "B error 1"; failing "B error 2"].

(** A answers with a low score in the first attempt and is down in the
    second; B is down throughout. *)
Definition low_then_down : World :=
  mkWorld [ok "ok"; failing "A error 2"]
          [failing "B error 1"; failing "B error 2"].

End Doubles.

(** ** The router as [__init__] builds it *)

(** The four clients with the default keyword arguments of [generate]. *)
Definition production_router {W} (c : ClaudeClient W) (o : OpenAIClient W)
    (g : GeminiClient W) (q : GroqClient W) : SmartRouter W :=
  {| claude := fun p =>
       ClaudeClient_generate c p default_max_tokens default_temperature
         claude_default_model;
     openai := fun p =>
       OpenAIClient_generate o p default_max_tokens default_temperature
         openai_default_model;
     gemini := fun p =>
       GeminiClient_generate g p default_max_tokens default_temperature;
     groq := fun p =>
       GroqClient_generate q p default_max_tokens default_temperature
         groq_default_model;
     model_preferences := default_model_preferences |}.

(** The model ids these four clients put in their result dicts. *)
Definition production_model_ids : list string :=
  [claude_default_model; openai_default_model; "gemini-pro";
   groq_default_model].

(** A remote service that answers every request with one empty text. *)
Module EmptyAnswer.
Definition claude_sdk : ClaudeClient unit :=
  {| claude_client := fun _ _ _ _ w => (Ret (Build_ClaudeResponse [""] 7 0), w) |}.
Definition openai_sdk : OpenAIClient unit :=
  {| openai_client := fun _ _ _ _ w =>
       (Ret (Build_ChatCompletion [""] 7 0 7), w) |}.
Definition router : SmartRouter unit :=
  production_router claude_sdk openai_sdk
    {| gemini_model := None |} {| groq_client := None |}.
End EmptyAnswer.

(** ** Specification-level definitions for UltimateAI *)

Module UltimateSpec.
Import Ultimate.

(** All configured provider names: the keys of both client dicts. *)
Definition configured {W} (self : UltimateAI W) : list string :=
  (free_clients self ++ web_clients self)%list.

(** The [try] block of [generate] raises when [provider] is tried from
    world [w]. *)
Definition provider_fails {W} (self : UltimateAI W)
    (provider prompt system_prompt : string) (w : W) : Prop :=
  exists e, fst (fst (fst (try_provider self provider prompt system_prompt w)))
            = Raise e.

(** Remote services that are all unreachable. *)
Definition unreachable : Remotes unit :=
  {| groq_create := fun _ w => (Raise (Exception "connection refused"), w);
     gemini_generate_content :=
       fun _ w => (Raise (Exception "connection refused"), w);
     web_send_prompt := fun _ _ w => (Raise (Exception "no browser"), w) |}.

(** Groq and Gemini are both configured, free providers are preferred. *)
Definition two_free : UltimateAI unit :=
  mkUltimateAI unit unreachable true ["groq"; "gemini"] [] 0 0.

(** Remote services that answer; [one_free] has Groq only. *)
Definition reachable : Remotes unit :=
  {| groq_create := fun _ w => (Ret "hello", w);
     gemini_generate_content := fun _ w => (Ret "hello", w);
     web_send_prompt := fun _ _ w => (Ret "hello", w) |}.

Definition one_free : UltimateAI unit :=
  mkUltimateAI unit reachable true ["groq"] [] 0 0.

End UltimateSpec.

(** The shape of an adapter result: the success dict or the failure dict,
    with one of the four model ids. *)
Definition adapter_shaped (r : GenResult) : Prop :=
  exists model,
    In model production_model_ids
    /\ ((exists content usage, r = gen_ok content model usage)
        \/ (exists error, r = gen_fail error model)).


(** ** The request schema and the generate route
    (app/schemas/request.py, app/api/routes/generate.py) *)

Module Request.

(** [TaskTypeEnum], the [str] enum of the request body. *)
Inductive TaskTypeEnum : Type :=
| CREATIVE_UI | CODE_GENERATION | ARCHITECTURE | DEBUGGING | FAST_SIMPLE
| MULTIMODAL | MODELING_3D | PLANNING | REFACTORING.

Definition value (e : TaskTypeEnum) : string :=
  match e with
  | CREATIVE_UI => "creative_ui"
  | CODE_GENERATION => "code_generation"
  | ARCHITECTURE => "architecture"
  | DEBUGGING => "debugging"
  | FAST_SIMPLE => "fast_simple"
  | MULTIMODAL => "multimodal"
  | MODELING_3D => "3d_modeling"
  | PLANNING => "planning"
  | REFACTORING => "refactoring"
  end.

End Request.

(** [TaskType(value)]: the first member, in definition order, with that
    value; [None] stands for the [ValueError] of a value no member has. *)
Definition TaskType_of_value (v : string) : option TaskType :=
  find (fun t => (TaskType_value t =? v)%string) all_task_types.

(** The part of [generate_content] up to the routing: the conversion of the
    requested task type (skipped when the field is absent or, being a [str],
    empty) and the call [route_task(prompt, task_type, max_attempts=2)].
    [None] stands for the exception the handler turns into HTTP 500. *)
Definition generate_content_route {W} (smart_router : SmartRouter W)
    (request_prompt : string)
    (request_task_type : option Request.TaskTypeEnum) (w : W)
  : option (RouteOutcome * W * list CallEvent) :=
  match request_task_type with
  | Some e =>
      if Ultimate.truthy (Request.value e) then
        match TaskType_of_value (Request.value e) with
        | Some task_type =>
            Some (route_task smart_router request_prompt (Some task_type) 2 w)
        | None => None
        end
      else Some (route_task smart_router request_prompt None 2 w)
  | None => Some (route_task smart_router request_prompt None 2 w)
  end.

(** ** UltimateAI, continued *)

Module UltimateMore.
Import Ultimate UltimateSpec.

(** The object with its [prefer_free] flag set to [b]. *)
Definition with_prefer_free {W} (self : UltimateAI W) (b : bool)
  : UltimateAI W :=
  mkUltimateAI W (remotes self) b (free_clients self) (web_clients self)
    (free_calls self) (web_calls self).

(** The free-client dicts [_init_all_clients] can build: Groq is inserted
    before Gemini, each only when its key is set. *)
Definition init_free_clients : list (list string) :=
  [[]; ["groq"]; ["gemini"]; ["groq"; "gemini"]].

End UltimateMore.

(** ** More string primitives *)

Module PyStrMore.

(** [s.find(c)] for a one-character [c]: the first index, or -1. *)
Fixpoint find_char (c : ascii) (s : string) : Z :=
  match s with
  | EmptyString => -1
  | String d rest =>
      if Ascii.eqb d c then 0
      else let r := find_char c rest in
           if r <? 0 then -1 else r + 1
  end.

(** [s.rfind(c)] for a one-character [c]: the last index, or -1. *)
Fixpoint rfind_char (c : ascii) (s : string) : Z :=
  match s with
  | EmptyString => -1
  | String d rest =>
      let r := rfind_char c rest in
      if 0 <=? r then r + 1
      else if Ascii.eqb d c then 0 else -1
  end.

(** [s[a:b]] for [0 <= a <= b] (an end beyond the string is clamped). *)
Definition slice (s : string) (a b : Z) : string :=
  substring (Z.to_nat a) (Z.to_nat (b - a)) s.

(** [c in s] for a one-character [c]. *)
Definition has_char (c : ascii) (s : string) : bool :=
  PyStr.contains (String c EmptyString) s.

(** The double quote character as a string. *)
Definition dq : string := String (ascii_of_nat 34) EmptyString.

End PyStrMore.

(** ** UltimateAI.generate_plan *)

Module UltimatePlan.
Import Ultimate.

(** The value stored under the [plan] key: what [json.loads] returned, or
    the one-step list of the [except] clause. *)
Inductive Plan (J : Type) : Type :=
| Parsed (j : J)
| DefaultPlan.
Arguments Parsed {J} j.
Arguments DefaultPlan {J}.

(** The dict returned by [generate_plan]: the answer of [generate], with a
    [plan] key that may be absent. *)
Record PlanAnswer (J : Type) := mkPlanAnswer {
  answer : Answer;
  plan : option (Plan J)
}.
Arguments mkPlanAnswer {J}.
Arguments answer {J}.
Arguments plan {J}.

Definition plan_system_prompt : string :=
  "Create detailed project execution plan." ++ PyStr.nl
  ++ "Return ONLY JSON array of steps.".

Definition plan_prompt (user_prompt project_type : string) : string :=
  "Create plan for:" ++ PyStr.nl ++ "Type: " ++ project_type ++ PyStr.nl
  ++ "Request: " ++ user_prompt ++ PyStr.nl ++ PyStr.nl
  ++ "Return JSON: [{" ++ PyStrMore.dq ++ "step_number" ++ PyStrMore.dq
  ++ ": 1, " ++ PyStrMore.dq ++ "description" ++ PyStrMore.dq ++ ": "
  ++ PyStrMore.dq ++ "..." ++ PyStrMore.dq ++ ", " ++ PyStrMore.dq
  ++ "estimated_time" ++ PyStrMore.dq ++ ": " ++ PyStrMore.dq ++ "5 min"
  ++ PyStrMore.dq ++ "}]".

Section GeneratePlan.

Variable W : Type.
Variable J : Type.
(** [json.loads]; [None] when it raises. *)
Variable json_loads : string -> option J.

(** The [try] block after [generate] has returned, with its bare [except];
    a [text] that is [None] has no [find] method, which the [except] clause
    catches as well. *)
Definition plan_of_text (text : option string) : option (Plan J) :=
  match text with
  | None => Some DefaultPlan
  | Some text =>
      let json_start := PyStrMore.find_char "["%char text in
      let json_end := PyStrMore.rfind_char "]"%char text + 1 in
      if (0 <=? json_start) && (json_start <? json_end) then
        match json_loads (PyStrMore.slice text json_start json_end) with
        | Some parsed => Some (Parsed parsed)
        | None => Some DefaultPlan
        end
      else None
  end.

Definition generate_plan (depth : nat) (self : UltimateAI W)
    (user_prompt project_type : string) (w : W)
  : res (PlanAnswer J) * UltimateAI W * W * list string :=
  match generate depth self (plan_prompt user_prompt project_type)
          plan_system_prompt "planning" w with
  | (Ret result, self1, w1, calls) =>
      (Ret (mkPlanAnswer result (plan_of_text (text result))),
       self1, w1, calls)
  | (Raise e, self1, w1, calls) => (Raise e, self1, w1, calls)
  end.

End GeneratePlan.

Arguments plan_of_text {J}.
Arguments generate_plan {W J}.

End UltimatePlan.

(** ** ClaudeClient.generate_structured *)

Section ClaudeStructured.

Variable W : Type.
Variable J : Type.
(** [json.loads]: the parsed value, or the exception it raises.  That is a
    [JSONDecodeError] for a text that is not JSON, but not only: a text
    nested too deeply gives a [RecursionError], an integer literal with too
    many digits a plain [ValueError]. *)
Variable json_loads : string -> res J.

(** The result dict of [generate_structured]: the dict of [generate], with a
    [structured_data] key when parsing succeeded. *)
Record StructuredResult := mkStructuredResult {
  sr_success : bool;
  sr_content : option string;
  sr_model : option string;
  sr_usage : option Usage;
  sr_error : option string;
  sr_structured_data : option J
}.

(** The prompt sent to the model; [schema] is [str(schema)]. *)
Definition structured_prompt (prompt schema : string) : string :=
  PyStr.nl ++ "        " ++ prompt ++ PyStr.nl ++ "        " ++ PyStr.nl
  ++ "        Please respond with valid JSON that matches this schema:"
  ++ PyStr.nl ++ "        " ++ schema ++ PyStr.nl ++ "        " ++ PyStr.nl
  ++ "        Your response should be ONLY the JSON, no other text."
  ++ PyStr.nl ++ "        ".

(** [generate_structured].  The clause [except json.JSONDecodeError] catches
    that exception only; any other exception of [json.loads] leaves the
    function. *)
Definition ClaudeClient_generate_structured (self : ClaudeClient W)
    (prompt schema : string) (max_tokens : Z) : M W StructuredResult :=
  (result <- ClaudeClient_generate self (structured_prompt prompt schema)
               max_tokens 0.3%float claude_default_model ;;
   if g_success result then
     content <- getitem "content" (g_content result) ;;
     match json_loads content with
     | Ret parsed_content =>
         ret (mkStructuredResult true (g_content result) (g_model result)
                (g_usage result) (g_error result) (Some parsed_content))
     | Raise (JSONDecodeError _) =>
         ret (mkStructuredResult false (g_content result) (g_model result)
                (g_usage result)
                (Some "Failed to parse structured response") None)
     | Raise e => raise e
     end
   else
     ret (mkStructuredResult (g_success result) (g_content result)
            (g_model result) (g_usage result) (g_error result) None))%py.

End ClaudeStructured.

Arguments sr_success {J}.
Arguments sr_content {J}.
Arguments sr_model {J}.
Arguments sr_usage {J}.
Arguments sr_error {J}.
Arguments sr_structured_data {J}.
Arguments ClaudeClient_generate_structured {W J}.

(** ** API keys of the external routes (app/api/routes/external.py) *)

Module ApiKeys.

(** [HTTPException(status_code, detail)] *)
Inductive HTTPException : Type :=
| mkHTTPException (status_code : Z) (detail : string).

Definition status_of (e : HTTPException) : Z :=
  match e with mkHTTPException status _ => status end.

(** A [datetime] is a number of microseconds on the UTC time line. *)
Definition hour : Z := 3600000000.
Definition days (n : Z) : Z := n * 86400000000.

(** [t.replace(minute=0, second=0, microsecond=0)] *)
Definition floor_hour (t : Z) : Z := t - t mod hour.

(** The dict stored for a key. *)
Record KeyData := mkKeyData {
  kd_key : string;
  kd_name : string;
  kd_permissions : list string;
  kd_rate_limit : option Z;
  kd_created_at : Z;
  kd_expires_at : option Z;
  kd_usage_count : Z;
  kd_last_used : option Z;
  kd_last_reset : Z
}.

(** [api_keys_db]: key hash to key data, in insertion order. *)
Definition Store := list (string * KeyData).

Fixpoint lookup (key_hash : string) (db : Store) : option KeyData :=
  match db with
  | [] => None
  | (h, kd) :: rest =>
      if (h =? key_hash)%string then Some kd else lookup key_hash rest
  end.

(** [db[key_hash] = kd]: replaces in place, or appends. *)
Fixpoint store_set (key_hash : string) (kd : KeyData) (db : Store) : Store :=
  match db with
  | [] => [(key_hash, kd)]
  | (h, old) :: rest =>
      if (h =? key_hash)%string then (h, kd) :: rest
      else (h, old) :: store_set key_hash kd rest
  end.

(** [del db[key_hash]] *)
Definition store_del (key_hash : string) (db : Store) : Store :=
  filter (fun entry => negb (fst entry =? key_hash)%string) db.

Definition set_usage (kd : KeyData) (usage_count : Z) (last_reset : Z)
  : KeyData :=
  mkKeyData (kd_key kd) (kd_name kd) (kd_permissions kd) (kd_rate_limit kd)
    (kd_created_at kd) (kd_expires_at kd) usage_count (kd_last_used kd)
    last_reset.

Definition set_used (kd : KeyData) (usage_count : Z) (last_used : Z)
  : KeyData :=
  mkKeyData (kd_key kd) (kd_name kd) (kd_permissions kd) (kd_rate_limit kd)
    (kd_created_at kd) (kd_expires_at kd) usage_count (Some last_used)
    (kd_last_reset kd).

(** [rate_limit and usage_count >= rate_limit]: a limit that is [None] or 0
    is falsy. *)
Definition limit_reached (kd : KeyData) : bool :=
  match kd_rate_limit kd with
  | None => false
  | Some limit => negb (limit =? 0) && (limit <=? kd_usage_count kd)
  end.

(** [expires_at and expires_at < now] *)
Definition expired (kd : KeyData) (now : Z) : bool :=
  match kd_expires_at kd with
  | None => false
  | Some expires_at => expires_at <? now
  end.

Section WithHash.

(** [hashlib.sha256(s.encode()).hexdigest()] *)
Variable sha256_hex : string -> string.

(** [verify_api_key]; [now1], [now2], [now3] are the three successive
    readings of [datetime.utcnow()].  The key data is the stored dict itself,
    so every assignment to it is an update of the store. *)
Definition verify_api_key (api_key : option string) (now1 now2 now3 : Z)
    (db : Store) : (HTTPException + KeyData) * Store :=
  match api_key with
  | None => (inl (mkHTTPException 401 "API key required"), db)
  | Some api_key =>
      if negb (Ultimate.truthy api_key) then
        (inl (mkHTTPException 401 "API key required"), db)
      else
        let key_hash := sha256_hex api_key in
        match lookup key_hash db with
        | None => (inl (mkHTTPException 401 "Invalid API key"), db)
        | Some key_data =>
            if expired key_data now1 then
              (inl (mkHTTPException 401 "API key expired"), db)
            else
              let current_hour := floor_hour now2 in
              let key_data :=
                if kd_last_reset key_data <? current_hour
                then set_usage key_data 0 current_hour
                else key_data in
              if limit_reached key_data then
                (inl (mkHTTPException 429 "Rate limit exceeded"),
                 store_set key_hash key_data db)
              else
                let key_data :=
                  set_used key_data (kd_usage_count key_data + 1) now3 in
                (inr key_data, store_set key_hash key_data db)
        end
  end.

(** [create_api_key]; [token] is [secrets.token_urlsafe(32)] and [now1],
    [now2], [now3] are the readings of [datetime.utcnow()] for [expires_at],
    [created_at] and [last_reset]. *)
Definition create_api_key (name : string) (permissions : list string)
    (rate_limit : option Z) (token : string) (now1 now2 now3 : Z)
    (db : Store) : KeyData * Store :=
  let api_key := "genesis_" ++ token in
  let key_hash := sha256_hex api_key in
  let expires_at := now1 + days 365 in
  let key_data :=
    mkKeyData api_key name permissions rate_limit now2 (Some expires_at) 0
      None (floor_hour now3) in
  (key_data, store_set key_hash key_data db).

End WithHash.

(** [delete_api_key] *)
Definition delete_api_key (key_name : string) (db : Store)
  : (HTTPException + string) * Store :=
  let keys_to_delete :=
    map fst (filter (fun entry => (kd_name (snd entry) =? key_name)%string)
               db) in
  match keys_to_delete with
  | [] => (inl (mkHTTPException 404 "API key not found"), db)
  | _ :: _ =>
      (inr "API key deleted successfully",
       fold_left (fun store key_hash => store_del key_hash store)
         keys_to_delete db)
  end.

(** The stored counter respects a positive limit. *)
Definition within_limit (kd : KeyData) : Prop :=
  0 <= kd_usage_count kd
  /\ forall limit, kd_rate_limit kd = Some limit -> 0 < limit ->
                   kd_usage_count kd <= limit.

(** Successive verifications of one key, each with its three clock
    readings; the answers in order and the store at the end. *)
Fixpoint verify_each (sha256_hex : string -> string) (api_key : string)
    (readings : list (Z * Z * Z)) (db : Store)
  : list (HTTPException + KeyData) * Store :=
  match readings with
  | [] => ([], db)
  | (now1, now2, now3) :: later =>
      let '(answer, db1) :=
        verify_api_key sha256_hex (Some api_key) now1 now2 now3 db in
      let '(answers, db2) := verify_each sha256_hex api_key later db1 in
      (answer :: answers, db2)
  end.

Definition accepted_count (answers : list (HTTPException + KeyData)) : Z :=
  Z.of_nat (List.length (filter (fun a => match a with
                                          | inr _ => true
                                          | inl _ => false
                                          end) answers)).

(** A stand-in hash for concrete runs: the key itself. *)
Definition plain (s : string) : string := s.

(** A key limited to two calls an hour, unused. *)
Definition limited : KeyData :=
  mkKeyData "genesis_t" "ci" ["generate"] (Some 2) 0 (Some (days 365)) 0 None
    0.

End ApiKeys.
(** * Properties *)

(** ** The classifier *)

(** [PyStr.contains] is substring containment. *)
Lemma prefix_app (needle s : string) :
  String.prefix needle s = true <-> exists post, s = needle ++ post.
Proof.
  revert s; induction needle as [| c needle IH]; intros s.
  - split; [intros _; exists s; reflexivity | intros _; destruct s; reflexivity].
  - destruct s as [| d s]; cbn [String.prefix].
    + split; [discriminate | intros [post H]; discriminate].
    + destruct (Ascii.ascii_dec c d) as [-> | Hne].
      * split.
        -- intros H. apply IH in H as [post H]. exists post. now rewrite H.
        -- intros [post H]. apply IH. exists post. now injection H.
      * split; [discriminate |].
        intros [post H]; injection H as H1 _; congruence.
Qed.

Lemma contains_nil (needle : string) :
  PyStr.contains needle "" = String.prefix needle "".
Proof. cbn [PyStr.contains]. now destruct (String.prefix needle ""). Qed.

Lemma contains_cons (needle : string) (c : ascii) (s : string) :
  PyStr.contains needle (String c s)
  = String.prefix needle (String c s) || PyStr.contains needle s.
Proof.
  cbn [PyStr.contains]. now destruct (String.prefix needle (String c s)).
Qed.

Lemma contains_substring (needle s : string) :
  PyStr.contains needle s = true <-> exists pre post, s = pre ++ needle ++ post.
Proof.
  induction s as [| c s IH].
  - rewrite contains_nil, prefix_app. split.
    + intros [post H]. exists "", post. exact H.
    + intros [pre [post H]]. destruct pre; [| discriminate]. eauto.
  - rewrite contains_cons, orb_true_iff, prefix_app, IH. split.
    + intros [[post H] | [pre [post H]]].
      * exists "", post. exact H.
      * exists (String c pre), post. now rewrite H.
    + intros [pre [post H]]. destruct pre as [| d pre].
      * left. eauto.
      * right. injection H as _ H. eauto.
Qed.

Lemma length_app (a b : string) :
  String.length (a ++ b) = (String.length a + String.length b)%nat.
Proof. induction a as [| c a IH]; cbn; [reflexivity | now rewrite IH]. Qed.

(** C5: [classify_task] is a total function into the nine task types; it
    agrees, on every prompt, with the first-match scan of the priority table
    creative-ui, 3d-modeling, multimodal, architecture, debugging, planning,
    refactoring, fast-simple (that row also needs fewer than 20 words) over
    the lower-cased prompt, with code-generation as the default; a keyword
    matches when it occurs as a substring; the two sample prompts classify as
    creative-ui and code-generation. *)
Theorem classify_task_first_match :
  (forall prompt, classify_task prompt = classify_spec prompt)
  /\ map (fun row => fst (fst row)) priority_table
     = [CREATIVE_UI; MODELING_3D; MULTIMODAL; ARCHITECTURE; DEBUGGING;
        PLANNING; REFACTORING; FAST_SIMPLE]
  /\ (forall prompt, In (classify_task prompt) all_task_types)
  /\ (forall keywords s,
        PyStr.any_in keywords s = true
        <-> exists k pre post, In k keywords /\ s = pre ++ k ++ post)
  /\ classify_task "design a debug fix for the UI" = CREATIVE_UI
  /\ classify_task "hello" = CODE_GENERATION.
Proof.
  split; [| split; [reflexivity | split; [| split; [| split; reflexivity]]]].
  - intro prompt.
    unfold classify_task, classify_spec, priority_table.
    cbn [find row_matches andb].
    generalize (PyStr.lower prompt) as lowered; intro lowered.
    repeat match goal with
           | |- context [PyStr.any_in ?k lowered] =>
               destruct (PyStr.any_in k lowered); cbn [andb]; try reflexivity
           end.
    all: rewrite ?andb_true_r, ?andb_false_r; try reflexivity.
    all: destruct (PyStr.split_len prompt <? 20); reflexivity.
  - intro prompt.
    destruct (classify_task prompt); cbn; tauto.
  - intros keywords s. unfold PyStr.any_in. rewrite existsb_exists. split.
    + intros (k & Hk & Hc). apply contains_substring in Hc as (pre & post & E).
      exists k, pre, post. auto.
    + intros (k & pre & post & Hk & E). exists k. split; [exact Hk |].
      apply contains_substring. eauto.
Qed.


(** ** The quality scorer *)

Lemma quality_check_success (r : GenResult) :
  g_success r = true ->
  let content := get_default (g_content r) "" in
  quality_check r
  = score_table (in_length_range content) (fenced content) (explained content).
Proof.
  intros Hs content. unfold quality_check. rewrite Hs. cbn [negb].
  fold content. unfold in_length_range, fenced, explained.
  destruct ((100 <=? PyStr.len content) && (PyStr.len content <=? 2000));
    destruct (PyStr.contains "```" content);
    destruct (PyStr.any_in explanation_words (PyStr.lower content));
    reflexivity.
Qed.

Lemma quality_check_failure (r : GenResult) :
  g_success r = false -> quality_check r = 0.0%float.
Proof. intros Hs. unfold quality_check. rewrite Hs. reflexivity. Qed.

(** A successful result scores at least 0.5 and strictly less than 1. *)
Lemma quality_check_success_bounds (r : GenResult) :
  g_success r = true ->
  (0.5 <=? quality_check r)%float = true
  /\ (quality_check r <? 1.0)%float = true.
Proof.
  intros Hs. rewrite (quality_check_success r Hs). cbv zeta.
  destruct (in_length_range _), (fenced _), (explained _);
    split; reflexivity.
Qed.

(** C4 (as the code has it): a failed result scores 0.0; a successful one
    scores 0.5, plus 0.2 for a length in [100, 2000], plus 0.2 for a fenced
    block marker, plus 0.1 for an explanatory word in the lower-cased content,
    the additions done left to right in binary64 and the sum clamped by
    [min(_, 1.0)]; the score is always within [0, 1]; the 150-character sample
    with a fence and the word because scores 0.9999999999999999, the binary64
    value of 0.5 + 0.2 + 0.2 + 0.1, which is below 1.0. *)
Theorem quality_check_spec :
  (forall r, g_success r = false -> quality_check r = 0.0%float)
  /\ (forall r, g_success r = true ->
        let content := get_default (g_content r) "" in
        let bonus (test : bool) (amount : float) (score : float) : float :=
          if test then (score + amount)%float else score in
        quality_check r
        = py_min (bonus (explained content) 0.1
                    (bonus (fenced content) 0.2
                       (bonus (in_length_range content) 0.2 0.5)))
                 1.0)%float
  /\ (forall r, (0.0 <=? quality_check r)%float = true
                /\ (quality_check r <=? 1.0)%float = true)
  /\ (PyStr.len sample_content = 150
      /\ fenced sample_content = true
      /\ PyStr.contains "because" (PyStr.lower sample_content) = true
      /\ quality_check sample_result = 0.9999999999999999%float
      /\ quality_check sample_result = (0.5 + 0.2 + 0.2 + 0.1)%float
      /\ (quality_check sample_result <? 1.0)%float = true).
Proof.
  split; [exact quality_check_failure |].
  split; [intros r Hs; unfold quality_check; rewrite Hs; reflexivity |].
  split; [| repeat split; vm_compute; reflexivity].
  intro r. destruct (g_success r) eqn:Hs.
  - rewrite (quality_check_success r Hs). cbv zeta.
    destruct (in_length_range _), (fenced _), (explained _);
      split; reflexivity.
  - rewrite (quality_check_failure r Hs). split; reflexivity.
Qed.

(** C4 fails as stated: the sample scores 0.9999999999999999, which is not
    1.0. *)
Lemma quality_sample_not_one :
  g_success sample_result = true
  /\ PyStr.len sample_content = 150
  /\ fenced sample_content = true
  /\ PyStr.contains "because" (PyStr.lower sample_content) = true
  /\ quality_check sample_result = 0.9999999999999999%float
  /\ (quality_check sample_result =? 1.0)%float = false
  /\ (quality_check sample_result <? 1.0)%float = true.
Proof. repeat split; vm_compute; reflexivity. Qed.

(** ** The prompt enhancer *)

(** C7 (as the code has it): the result is always the prompt, two newlines,
    and the enhancer text; for the five task types with an entry that text is
    the fixed non-empty suffix, and for the other four the text is empty, so
    the result is the prompt followed by two newlines, never the prompt
    itself. *)
Theorem enhance_prompt_spec (prompt : string) (t : TaskType) :
  (In t [CREATIVE_UI; CODE_GENERATION; ARCHITECTURE; DEBUGGING; PLANNING] ->
     exists suffix, enhancers t = Some suffix
       /\ (0 < String.length suffix)%nat
       /\ _enhance_prompt prompt t
          = prompt ++ PyStr.nl ++ PyStr.nl ++ suffix)
  /\ (In t [FAST_SIMPLE; MULTIMODAL; MODELING_3D; REFACTORING] ->
        enhancers t = None
        /\ _enhance_prompt prompt t = prompt ++ PyStr.nl ++ PyStr.nl
        /\ String.length (_enhance_prompt prompt t)
           = (String.length prompt + 2)%nat
        /\ _enhance_prompt prompt t <> prompt).
Proof.
  split.
  - intros Hin. cbn in Hin.
    destruct Hin as [<- | [<- | [<- | [<- | [<- | []]]]]];
      eexists; (split; [reflexivity | split; [cbn; lia | reflexivity]]).
  - intros Hin.
    assert (E : _enhance_prompt prompt t = prompt ++ PyStr.nl ++ PyStr.nl).
    { cbn in Hin. destruct Hin as [<- | [<- | [<- | [<- | []]]]]; reflexivity. }
    assert (L : String.length (_enhance_prompt prompt t)
                = (String.length prompt + 2)%nat).
    { rewrite E, length_app. reflexivity. }
    split; [| split; [exact E | split; [exact L |]]].
    + cbn in Hin. destruct Hin as [<- | [<- | [<- | [<- | []]]]]; reflexivity.
    + intro H. rewrite H in L. lia.
Qed.

(** C7 fails as stated: for a task type without an entry the prompt comes
    back with two newline characters appended. *)
Lemma enhance_prompt_not_identity :
  _enhance_prompt "hi" FAST_SIMPLE = "hi" ++ PyStr.nl ++ PyStr.nl
  /\ (_enhance_prompt "hi" FAST_SIMPLE =? "hi")%string = false
  /\ String.length (_enhance_prompt "hi" FAST_SIMPLE) = 4%nat.
Proof. repeat split. Qed.

(** ** The provider adapters *)

Section AdapterProperties.

Variable W : Type.

Lemma claude_contract (c : ClaudeClient W) prompt max_tokens temperature model :
  honours_contract
    (ClaudeClient_generate c prompt max_tokens temperature model) model.
Proof.
  intro w. unfold ClaudeClient_generate, try_except, bind, index0, ret, raise.
  destruct (claude_client c model max_tokens temperature prompt w)
    as [[response | e] w1].
  - destruct (cr_content response) as [| text blocks];
      do 2 eexists; (split; [reflexivity |]).
    + right. eexists. reflexivity.
    + left. do 2 eexists. reflexivity.
  - do 2 eexists. split; [reflexivity |]. right. eexists. reflexivity.
Qed.

Lemma openai_contract (c : OpenAIClient W) prompt max_tokens temperature model :
  honours_contract
    (OpenAIClient_generate c prompt max_tokens temperature model) model.
Proof.
  intro w. unfold OpenAIClient_generate, try_except, bind, index0, ret, raise.
  destruct (openai_client c model max_tokens temperature prompt w)
    as [[response | e] w1].
  - destruct (cc_choices response) as [| text choices];
      do 2 eexists; (split; [reflexivity |]).
    + right. eexists. reflexivity.
    + left. do 2 eexists. reflexivity.
  - do 2 eexists. split; [reflexivity |]. right. eexists. reflexivity.
Qed.

Lemma groq_contract (c : GroqClient W) prompt max_tokens temperature model :
  honours_contract
    (GroqClient_generate c prompt max_tokens temperature model) model.
Proof.
  intro w. unfold GroqClient_generate.
  destruct (groq_client c) as [create |].
  - unfold try_except, bind, index0, ret, raise.
    destruct (create model max_tokens temperature prompt w)
      as [[response | e] w1].
    + destruct (cc_choices response) as [| text choices];
        do 2 eexists; (split; [reflexivity |]).
      * right. eexists. reflexivity.
      * left. do 2 eexists. reflexivity.
    + do 2 eexists. split; [reflexivity |]. right. eexists. reflexivity.
  - do 2 eexists. split; [reflexivity |]. right. eexists. reflexivity.
Qed.

Lemma gemini_contract (c : GeminiClient W) prompt max_tokens temperature :
  honours_contract
    (GeminiClient_generate c prompt max_tokens temperature) "gemini-pro".
Proof.
  intro w. unfold GeminiClient_generate.
  destruct (gemini_model c) as [generate_content |].
  - unfold try_except, bind, ret.
    destruct (generate_content prompt max_tokens temperature w)
      as [[text | e] w1];
      do 2 eexists; (split; [reflexivity |]).
    + left. do 2 eexists. reflexivity.
    + right. eexists. reflexivity.
  - do 2 eexists. split; [reflexivity |]. right. eexists. reflexivity.
Qed.

(** C8: every adapter's [generate] returns a result dict from every world and
    never raises; an exception of the remote call becomes the failure result
    with [str(e)] and the model id (so does a response without choices or
    text blocks); and with credentials absent Groq and Gemini return the
    not-configured failure result without calling the remote service. *)
Theorem adapters_never_raise prompt max_tokens temperature model :
  (forall c : ClaudeClient W,
      honours_contract
        (ClaudeClient_generate c prompt max_tokens temperature model) model
      /\ forall w e w1,
          claude_client c model max_tokens temperature prompt w = (Raise e, w1) ->
          ClaudeClient_generate c prompt max_tokens temperature model w
          = (Ret (gen_fail (str_exn e) model), w1))
  /\ (forall c : GroqClient W,
      honours_contract
        (GroqClient_generate c prompt max_tokens temperature model) model
      /\ (groq_client c = None ->
          forall w,
            GroqClient_generate c prompt max_tokens temperature model w
            = (Ret (gen_fail "Groq API key not configured" model), w))
      /\ forall create w e w1,
          groq_client c = Some create ->
          create model max_tokens temperature prompt w = (Raise e, w1) ->
          GroqClient_generate c prompt max_tokens temperature model w
          = (Ret (gen_fail (str_exn e) model), w1))
  /\ (forall c : OpenAIClient W,
      honours_contract
        (OpenAIClient_generate c prompt max_tokens temperature model) model
      /\ forall w e w1,
          openai_client c model max_tokens temperature prompt w = (Raise e, w1) ->
          OpenAIClient_generate c prompt max_tokens temperature model w
          = (Ret (gen_fail (str_exn e) model), w1))
  /\ (forall c : GeminiClient W,
      honours_contract
        (GeminiClient_generate c prompt max_tokens temperature) "gemini-pro"
      /\ (gemini_model c = None ->
          forall w,
            GeminiClient_generate c prompt max_tokens temperature w
            = (Ret (gen_fail "Gemini API key not configured" "gemini-pro"), w))
      /\ forall generate_content w e w1,
          gemini_model c = Some generate_content ->
          generate_content prompt max_tokens temperature w = (Raise e, w1) ->
          GeminiClient_generate c prompt max_tokens temperature w
          = (Ret (gen_fail (str_exn e) "gemini-pro"), w1)).
Proof.
  repeat split.
  - apply claude_contract.
  - intros w e w1 H. unfold ClaudeClient_generate, try_except, bind.
    rewrite H. reflexivity.
  - apply groq_contract.
  - intros H w. unfold GroqClient_generate. rewrite H. reflexivity.
  - intros create w e w1 Hc H.
    unfold GroqClient_generate, try_except, bind. rewrite Hc, H. reflexivity.
  - apply openai_contract.
  - intros w e w1 H. unfold OpenAIClient_generate, try_except, bind.
    rewrite H. reflexivity.
  - apply gemini_contract.
  - intros H w. unfold GeminiClient_generate. rewrite H. reflexivity.
  - intros gc w e w1 Hc H.
    unfold GeminiClient_generate, try_except, bind. rewrite Hc, H. reflexivity.
Qed.

End AdapterProperties.

(** ** The router *)

Section RouterProperties.

Variable W : Type.
Variable self : SmartRouter W.
Variable prompt : string.
Variable task_type : TaskType.
Variable max_attempts : Z.

Lemma calls_from_app w log1 w1 log2 w2 :
  calls_from self prompt task_type w log1 w1 -> calls_from self prompt task_type w1 log2 w2 ->
  calls_from self prompt task_type w (log1 ++ log2) w2.
Proof.
  induction 1 as [| ? ? ? ? ? Hc _ IH]; cbn; [trivial |].
  intros H2. econstructor; eauto.
Qed.

Lemma calls_from_In w log w' ev :
  calls_from self prompt task_type w log w' -> In ev log ->
  exists w0 w1,
    _call_model self (ev_model ev) prompt task_type w0 = (ev_result ev, w1).
Proof.
  induction 1 as [| w ev0 w1 log w2 Hcall _ IH]; intros Hin; [contradiction |].
  destruct Hin as [<- | Hin]; [eauto | auto].
Qed.

Lemma try_model_spec (ev : CallEvent) (last_error : option string) :
  try_model (ev_result ev) task_type (ev_attempt ev) max_attempts last_error
  = match accept_outcome task_type max_attempts ev with
    | Some o => Return o
    | None => Continue (update_error task_type max_attempts last_error ev)
    end.
Proof.
  unfold try_model, accept_outcome, update_error, recorded_error, on_result,
    reaches_return.
  destruct (ev_result ev) as [r | e]; [| reflexivity].
  destruct (g_success r); cbn [andb]; [| reflexivity].
  destruct (0.7 <=? quality_check r)%float; cbn [orb].
  - destruct (success_outcome _ _ _ _); reflexivity.
  - destruct (ev_attempt ev <? max_attempts - 1); cbn [negb]; [reflexivity |].
    destruct (success_outcome _ _ _ _); reflexivity.
Qed.

Lemma for_models_spec (attempt : Z) (models : list string) :
  forall last_error w f w' log,
    for_models self prompt task_type attempt max_attempts models last_error w
    = (f, w', log) ->
    calls_from self prompt task_type w log w'
    /\ Forall (fun ev => ev_attempt ev = attempt) log
    /\ stops_at_first_accepted task_type max_attempts f log last_error
    /\ match f with
       | Return _ => exists rest, models = (map ev_model log ++ rest)%list
       | Continue _ => map ev_model log = models
       end.
Proof.
  induction models as [| model_name rest IH]; intros last_error w f w' log H.
  - cbn in H. injection H as <- <- <-.
    repeat split; try constructor.
  - cbn [for_models] in H.
    destruct (_call_model self model_name prompt task_type w)
      as [called w1] eqn:Hcall.
    set (ev := mkCallEvent attempt model_name called) in *.
    pose proof (try_model_spec ev last_error) as Hspec. cbn in Hspec.
    rewrite Hspec in H. clear Hspec.
    destruct (accept_outcome task_type max_attempts ev) as [o |] eqn:Hacc.
    + injection H as <- <- <-. repeat split.
      * econstructor; [exact Hcall | constructor].
      * constructor; [reflexivity | constructor].
      * exists [], ev. repeat split; [constructor | exact Hacc].
      * exists rest. reflexivity.
    + destruct (for_models self prompt task_type attempt max_attempts rest
                  (update_error task_type max_attempts last_error ev) w1)
        as [[f1 w2] log1] eqn:Hrest.
      injection H as <- <- <-.
      destruct (IH _ _ _ _ _ Hrest) as (Hc & Ha & Hs & Hm).
      repeat split.
      * econstructor; [exact Hcall | exact Hc].
      * constructor; [reflexivity | exact Ha].
      * destruct f1 as [le | o]; cbn in Hs |- *.
        -- destruct Hs as [Hr ->]. split; [constructor; assumption | reflexivity].
        -- destruct Hs as (pre & ev' & -> & Hr & Hacc').
           exists (ev :: pre), ev'. repeat split; [constructor; assumption | exact Hacc'].
      * destruct f1 as [le | o]; cbn.
        -- now rewrite Hm.
        -- destruct Hm as [rest' ->]. exists rest'. reflexivity.
Qed.

Lemma schedule_one_attempt attempt log models :
  Forall (fun ev => ev_attempt ev = attempt) log ->
  map ev_model log = models ->
  schedule_of log = map (pair attempt) models.
Proof.
  intros Ha <-. unfold schedule_of.
  induction Ha as [| ev log Hev _ IH]; cbn [map]; [reflexivity |].
  now rewrite Hev, IH.
Qed.

Lemma for_attempts_spec (models : list string) (attempts : list Z) :
  forall last_error w f w' log,
    for_attempts self prompt task_type max_attempts models attempts
                 last_error w = (f, w', log) ->
    calls_from self prompt task_type w log w'
    /\ Forall (fun ev => In (ev_attempt ev) attempts) log
    /\ stops_at_first_accepted task_type max_attempts f log last_error
    /\ match f with
       | Return _ =>
           exists rest,
             full_schedule attempts models = (schedule_of log ++ rest)%list
       | Continue _ => schedule_of log = full_schedule attempts models
       end.
Proof.
  induction attempts as [| attempt later IH]; intros last_error w f w' log H.
  - cbn in H. injection H as <- <- <-. repeat split; constructor.
  - cbn [for_attempts] in H.
    destruct (for_models self prompt task_type attempt max_attempts models
                last_error w) as [[f1 w1] log1] eqn:Hpass.
    destruct (for_models_spec _ _ _ _ _ _ _ Hpass) as (Hc & Ha & Hs & Hm).
    assert (Ha' : Forall (fun ev => In (ev_attempt ev) (attempt :: later)) log1).
    { eapply Forall_impl; [| exact Ha]. cbn. intros ev ->. now left. }
    destruct f1 as [le | o].
    + destruct (for_attempts self prompt task_type max_attempts models later
                  le w1) as [[f2 w2] log2] eqn:Hlater.
      injection H as <- <- <-.
      destruct (IH _ _ _ _ _ Hlater) as (Hc2 & Ha2 & Hs2 & Hm2).
      cbn in Hs. destruct Hs as [Hr ->].
      pose proof (schedule_one_attempt _ _ _ Ha Hm) as Hone.
      repeat split.
      * eapply calls_from_app; eassumption.
      * apply Forall_app. split; [exact Ha' |].
        eapply Forall_impl; [| exact Ha2]. cbn. intros ev Hin. now right.
      * destruct f2 as [le2 | o2]; cbn in Hs2 |- *.
        -- destruct Hs2 as [Hr2 ->]. split.
           ++ apply Forall_app. now split.
           ++ unfold last_error_after. now rewrite fold_left_app.
        -- destruct Hs2 as (pre & ev & -> & Hr2 & Hacc).
           exists (log1 ++ pre)%list, ev. repeat split.
           ++ now rewrite app_assoc.
           ++ apply Forall_app. now split.
           ++ exact Hacc.
      * unfold full_schedule in *. cbn [list_prod].
        unfold schedule_of in *. rewrite map_app, Hone.
        destruct f2 as [le2 | o2].
        -- now rewrite Hm2.
        -- destruct Hm2 as [rest ->]. exists rest. now rewrite app_assoc.
    + injection H as <- <- <-. repeat split; try assumption.
      destruct Hm as [rest Hm].
      exists (map (pair attempt) rest ++ list_prod later models)%list.
      unfold full_schedule. cbn [list_prod].
      rewrite Hm at 1. rewrite map_app, app_assoc.
      rewrite (schedule_one_attempt attempt log1 _ Ha eq_refl). reflexivity.
Qed.

Lemma in_range (n a : Z) : In a (range n) <-> 0 <= a < n.
Proof.
  unfold range. rewrite in_map_iff. split.
  - intros (k & <- & Hk). apply in_seq in Hk. lia.
  - intros Ha. exists (Z.to_nat a). split; [lia |]. apply in_seq. lia.
Qed.

(** A rejected task_type max_attempts call keeps the log going; an accepted one ends it. *)
Lemma accepted_is_last (pre : list CallEvent) (ev : CallEvent)
    (pre' post : list CallEvent) (ev' : CallEvent) :
  (pre ++ [ev])%list = (pre' ++ ev' :: post)%list ->
  Forall (rejected task_type max_attempts) pre -> accept_outcome task_type max_attempts ev' <> None ->
  post = [] /\ ev' = ev /\ pre' = pre.
Proof.
  revert pre'. induction pre as [| x pre IH]; intros pre' Heq Hrej Hacc.
  - destruct pre' as [| y pre']; cbn in Heq.
    + injection Heq as <- <-. auto.
    + injection Heq as _ Heq. destruct pre'; discriminate.
  - destruct pre' as [| y pre']; cbn in Heq.
    + injection Heq as <- _. inversion Hrej; subst. contradiction.
    + injection Heq as <- Heq. inversion Hrej; subst.
      destruct (IH _ Heq) as (-> & -> & ->); auto.
Qed.

(** The most recent call that recorded an error decides [last_error]. *)
Lemma last_error_most_recent (pre : list CallEvent) (ev : CallEvent)
    (post : list CallEvent) (e : string) (init : option string) :
  recorded_error task_type max_attempts ev = Some e ->
  Forall (fun x => recorded_error task_type max_attempts x = None) post ->
  last_error_after task_type max_attempts (pre ++ ev :: post) init = Some e.
Proof.
  intros He Hpost. unfold last_error_after.
  rewrite fold_left_app. cbn [fold_left].
  unfold update_error at 2. rewrite He.
  induction Hpost as [| x post Hx _ IH]; cbn [fold_left]; [reflexivity |].
  unfold update_error at 2. now rewrite Hx.
Qed.

End RouterProperties.

Section RouteTaskProperties.

Variable W : Type.
Variable self : SmartRouter W.
Variable prompt : string.

Lemma route_task_spec (task_type : option TaskType) (max_attempts : Z)
    (w : W) (o : RouteOutcome) (w' : W) (log : list CallEvent) :
  route_task self prompt task_type max_attempts w = (o, w', log) ->
  let tt := resolved_task_type prompt task_type in
  let models := preferred_models self tt in
  calls_from self prompt tt w log w'
  /\ Forall (fun ev => 0 <= ev_attempt ev < max_attempts) log
  /\ (exists rest,
        full_schedule (range max_attempts) models
        = (schedule_of log ++ rest)%list)
  /\ ((exists pre ev,
          log = (pre ++ [ev])%list
          /\ Forall (rejected tt max_attempts) pre
          /\ accept_outcome tt max_attempts ev = Some o)
      \/ (Forall (rejected tt max_attempts) log
          /\ schedule_of log = full_schedule (range max_attempts) models
          /\ o = failure_outcome tt max_attempts
                   (last_error_after tt max_attempts log None))).
Proof.
  intros H tt models. unfold route_task in H.
  fold (resolved_task_type prompt task_type) in H. fold tt in H.
  fold (preferred_models self tt) in H. fold models in H.
  destruct (for_attempts self prompt tt max_attempts models
              (range max_attempts) None w) as [[f w1] log1] eqn:Hrun.
  destruct (for_attempts_spec _ _ _ _ _ _ _ _ _ _ _ _ Hrun)
    as (Hc & Ha & Hs & Hm).
  assert (Ha' : Forall (fun ev => 0 <= ev_attempt ev < max_attempts) log1).
  { eapply Forall_impl; [| exact Ha]. intros ev Hin. now apply in_range. }
  destruct f as [le | o1]; injection H as <- <- <-; cbn in Hs.
  - destruct Hs as [Hr ->].
    split; [exact Hc | split; [exact Ha' | split]].
    + exists []. now rewrite app_nil_r.
    + right. repeat split; assumption.
  - split; [exact Hc | split; [exact Ha' | split; [exact Hm |]]].
    left. exact Hs.
Qed.

Lemma accept_outcome_inv tt max_attempts ev o :
  accept_outcome tt max_attempts ev = Some o ->
  exists r content model,
    ev_result ev = Ret r /\ g_success r = true
    /\ g_content r = Some content /\ g_model r = Some model
    /\ ((0.7 <=? quality_check r)%float = true
        \/ max_attempts - 1 <= ev_attempt ev)
    /\ o = success_dict r tt (ev_attempt ev) content model.
Proof.
  unfold accept_outcome, reaches_return, success_outcome.
  destruct (ev_result ev) as [r | e]; [| discriminate].
  destruct (g_success r) eqn:Hs; cbn [andb]; [| discriminate].
  destruct (g_content r) as [c |] eqn:Hc;
    [| destruct (_ || _); discriminate].
  destruct (g_model r) as [m |] eqn:Hm;
    [| destruct (_ || _); discriminate].
  destruct (0.7 <=? quality_check r)%float eqn:Hq; cbn [orb].
  - intros [= <-]. exists r, c, m. repeat split; auto.
  - destruct (ev_attempt ev <? max_attempts - 1) eqn:Ha; cbn [negb];
      [discriminate |].
    intros [= <-]. exists r, c, m. repeat split; auto. right. lia.
Qed.

Lemma accept_outcome_intro tt max_attempts ev r content model :
  ev_result ev = Ret r -> g_success r = true ->
  g_content r = Some content -> g_model r = Some model ->
  (0.7 <=? quality_check r)%float = true
  \/ max_attempts - 1 <= ev_attempt ev ->
  accept_outcome tt max_attempts ev
  = Some (success_dict r tt (ev_attempt ev) content model).
Proof.
  intros Hr Hs Hc Hm Hq.
  unfold accept_outcome, reaches_return, success_outcome.
  rewrite Hr, Hs, Hc, Hm. cbn [andb].
  destruct Hq as [-> | Hq]; [reflexivity |].
  replace (ev_attempt ev <? max_attempts - 1) with false by lia.
  now rewrite orb_true_r.
Qed.

(** An accepted call ends the run and decides the returned dict. *)
Lemma accepted_call_is_returned (task_type : option TaskType)
    (max_attempts : Z) (w : W) pre ev post r content model :
  let run := route_task self prompt task_type max_attempts w in
  let tt := resolved_task_type prompt task_type in
  calls_made run = (pre ++ ev :: post)%list ->
  ev_result ev = Ret r -> g_success r = true ->
  g_content r = Some content -> g_model r = Some model ->
  (0.7 <=? quality_check r)%float = true
  \/ max_attempts - 1 <= ev_attempt ev ->
  post = []
  /\ returned run = success_dict r tt (ev_attempt ev) content model
  /\ Forall (rejected tt max_attempts) pre.
Proof.
  intros run tt Hlog Hr Hs Hc Hm Hq.
  destruct run as [[o w'] log] eqn:Hrun. cbn in Hlog |- *. subst log.
  pose proof (accept_outcome_intro tt max_attempts ev r content model
                Hr Hs Hc Hm Hq) as Hacc.
  destruct (route_task_spec _ _ _ _ _ _ Hrun) as (_ & _ & _ & Hcases).
  fold tt in Hcases.
  destruct Hcases as [(pre0 & ev0 & Heq & Hrej & Hacc0) | (Hrej & _)].
  - symmetry in Heq.
    destruct (accepted_is_last _ _ _ _ _ _ _ Heq Hrej) as (-> & -> & ->).
    + rewrite Hacc. discriminate.
    + rewrite Hacc in Hacc0. injection Hacc0 as <-. auto.
  - apply Forall_app in Hrej as [_ Hrej]. inversion Hrej; subst.
    unfold rejected in *. congruence.
Qed.

End RouteTaskProperties.

Section RouteTaskClaims.

Variable W : Type.
Variable self : SmartRouter W.
Variable prompt : string.

(** C6: whenever a call made by [route_task] returns a successful result that
    scores at least 0.7 (and carries its content and model keys, as every
    adapter result does), that call is the last one made: no later provider
    and no further attempt is invoked, and the returned dict is the success
    dict of that result, with the attempt number of that call. *)
Theorem short_circuit_on_good_quality (task_type : option TaskType)
    (max_attempts : Z) (w : W) pre ev post r content model :
  let run := route_task self prompt task_type max_attempts w in
  let tt := resolved_task_type prompt task_type in
  calls_made run = (pre ++ ev :: post)%list ->
  ev_result ev = Ret r -> g_success r = true ->
  g_content r = Some content -> g_model r = Some model ->
  (0.7 <=? quality_check r)%float = true ->
  post = []
  /\ returned run = success_dict r tt (ev_attempt ev) content model
  /\ o_success (returned run) = true
  /\ o_attempts (returned run) = ev_attempt ev + 1.
Proof.
  intros run tt Hlog Hr Hs Hc Hm Hq.
  destruct (accepted_call_is_returned W self prompt task_type max_attempts w
              pre ev post r content model Hlog Hr Hs Hc Hm (or_introl Hq))
    as (Hpost & Hret & _).
  fold run in Hret. rewrite Hret. auto.
Qed.

(** C1 (as the code has it): a successful result (carrying its content and
    model keys) returned by a call of the final attempt ends the run: it is
    the first success of that pass in list order, the providers after it are
    not called, and it is returned as a success dict whatever its score. *)
Theorem final_attempt_returns_first_success (task_type : option TaskType)
    (max_attempts : Z) (w : W) pre ev post r content model :
  let run := route_task self prompt task_type max_attempts w in
  let tt := resolved_task_type prompt task_type in
  calls_made run = (pre ++ ev :: post)%list ->
  ev_attempt ev = max_attempts - 1 ->
  ev_result ev = Ret r -> g_success r = true ->
  g_content r = Some content -> g_model r = Some model ->
  post = []
  /\ returned run = success_dict r tt (max_attempts - 1) content model
  /\ o_success (returned run) = true
  /\ o_attempts (returned run) = max_attempts
  /\ Forall (fun e => ev_attempt e = max_attempts - 1 ->
                      forall r', ev_result e = Ret r' -> g_success r' = true ->
                                 g_content r' = None \/ g_model r' = None) pre
  /\ exists rest,
       full_schedule (range max_attempts) (preferred_models self tt)
       = (schedule_of (pre ++ [ev]) ++ rest)%list.
Proof.
  intros run tt Hlog Ha Hr Hs Hc Hm.
  assert (Hq : (0.7 <=? quality_check r)%float = true
               \/ max_attempts - 1 <= ev_attempt ev) by (right; lia).
  destruct (accepted_call_is_returned W self prompt task_type max_attempts w
              pre ev post r content model Hlog Hr Hs Hc Hm Hq)
    as (Hpost & Hret & Hrej).
  fold run in Hret. fold tt in Hrej. rewrite Hret, Ha. subst post.
  repeat split; cbn; try lia.
  - eapply Forall_impl; [| exact Hrej].
    intros e He Hae r' Hr' Hs'. unfold rejected in He.
    destruct (g_content r') as [c' |] eqn:Hc'; [| now left].
    destruct (g_model r') as [m' |] eqn:Hm'; [| now right].
    rewrite (accept_outcome_intro tt max_attempts e r' c' m') in He;
      [discriminate | assumption .. | right; lia].
  - destruct run as [[o w'] log] eqn:Hrun. cbn in Hlog. subst log.
    destruct (route_task_spec W self prompt _ _ _ _ _ _ Hrun)
      as (_ & _ & Hsched & _).
    exact Hsched.
Qed.

(** C2: with [max_attempts = 1], if the first provider of the preference
    list returns a successful result (with its content and model keys) that
    scores below 0.7, [route_task] makes that one call and returns the success
    dict with that score, that content and [attempts = 1]. *)
Theorem single_attempt_accepts_low_quality (task_type : option TaskType)
    (w : W) first rest r w1 content model :
  let tt := resolved_task_type prompt task_type in
  preferred_models self tt = first :: rest ->
  _call_model self first prompt tt w = (Ret r, w1) ->
  g_success r = true ->
  g_content r = Some content -> g_model r = Some model ->
  (quality_check r <? 0.7)%float = true ->
  route_task self prompt task_type 1 w
  = (mkRouteOutcome true (Some content) (Some model) (TaskType_value tt)
       (Some (quality_check r)) 1 (Some (get_default (g_usage r) [])) None,
     w1, [mkCallEvent 0 first (Ret r)]).
Proof.
  intros tt Hpref Hcall Hs Hc Hm _.
  unfold route_task. fold (resolved_task_type prompt task_type). fold tt.
  fold (preferred_models self tt). rewrite Hpref.
  change (range 1) with [0].
  cbn [for_attempts for_models]. rewrite Hcall.
  unfold try_model, on_result, success_outcome. rewrite Hs, Hc, Hm.
  destruct (0.7 <=? quality_check r)%float; reflexivity.
Qed.

(** C3 (as the code has it): [route_task] returns a failure dict exactly when
    none of its calls was accepted, an accepted call being a successful
    result that scores at least 0.7 or belongs to the final attempt (a
    low-scoring success of an earlier attempt is dropped).  If every call
    reported failure the dict is a failure dict.  A failure dict comes after
    the complete schedule (every attempt, every provider, in order: A, B, A, B
    for two attempts over [A, B]), has [attempts = max_attempts], and its
    message embeds the most recent recorded error. *)
Theorem failure_exactly_when_nothing_accepted (task_type : option TaskType)
    (max_attempts : Z) (w : W) :
  let run := route_task self prompt task_type max_attempts w in
  let tt := resolved_task_type prompt task_type in
  let models := preferred_models self tt in
  let o := returned run in
  let log := calls_made run in
  (o_success o = false <-> Forall (rejected tt max_attempts) log)
  /\ (Forall call_failed log -> o_success o = false)
  /\ (o_success o = false ->
      schedule_of log = full_schedule (range max_attempts) models
      /\ o_attempts o = max_attempts
      /\ o_content o = None
      /\ o_error o
         = Some ("All models failed. Last error: "
                 ++ fmt_opt (last_error_after tt max_attempts log None))
      /\ forall pre ev post e,
          log = (pre ++ ev :: post)%list ->
          recorded_error tt max_attempts ev = Some e ->
          Forall (fun x => recorded_error tt max_attempts x = None) post ->
          o_error o = Some ("All models failed. Last error: " ++ e))
  /\ (forall a b,
        full_schedule (range 2) [a; b] = [(0, a); (0, b); (1, a); (1, b)]).
Proof.
  intros run tt models o log.
  destruct run as [[o0 w'] log0] eqn:Hrun.
  subst o log. cbn [returned calls_made fst snd].
  destruct (route_task_spec W self prompt _ _ _ _ _ _ Hrun)
    as (_ & _ & _ & Hcases).
  fold tt in Hcases. fold models in Hcases.
  assert (Hiff : o_success o0 = false <-> Forall (rejected tt max_attempts) log0).
  { destruct Hcases as [(pre & ev & -> & Hrej & Hacc) | (Hrej & _ & ->)].
    - destruct (accept_outcome_inv _ _ _ _ Hacc)
        as (r & c & m & _ & _ & _ & _ & _ & ->).
      split; [discriminate |].
      intros H. apply Forall_app in H as [_ H]. inversion H; subst.
      unfold rejected in *. congruence.
    - split; [intros _; exact Hrej | reflexivity]. }
  split; [exact Hiff |]. split; [| split].
  - intros Hfail. apply Hiff.
    eapply Forall_impl; [| exact Hfail].
    intros ev Hev. unfold rejected, accept_outcome, call_failed in *.
    destruct (ev_result ev) as [r | e]; [| reflexivity].
    unfold reaches_return. now rewrite Hev.
  - intros Hf.
    destruct Hcases as [(pre & ev & -> & Hrej & Hacc) | (Hrej & Hsched & ->)].
    + destruct (accept_outcome_inv _ _ _ _ Hacc)
        as (r & c & m & _ & _ & _ & _ & _ & ->).
      discriminate.
    + split; [exact Hsched |]. repeat split.
      intros pre ev post e -> He Hpost. cbn.
      now rewrite (last_error_most_recent tt max_attempts pre ev post e None).
  - intros a b. reflexivity.
Qed.

(** The two shapes of the returned dict, for any adapters. *)
Lemma outcome_shape_any_router (task_type : option TaskType) (max_attempts : Z)
    (w : W) :
  let run := route_task self prompt task_type max_attempts w in
  let o := returned run in
  (o_success o = false ->
     o_content o = None /\ o_model o = None /\ o_quality_score o = None
     /\ exists e, o_error o = Some e)
  /\ (o_success o = true ->
      o_error o = None
      /\ exists ev r content model,
          In ev (calls_made run)
          /\ (exists w0 w1,
                _call_model self (ev_model ev) prompt
                  (resolved_task_type prompt task_type) w0
                = (ev_result ev, w1))
          /\ ev_result ev = Ret r /\ g_success r = true
          /\ g_content r = Some content /\ g_model r = Some model
          /\ o_content o = Some content /\ o_model o = Some model).
Proof.
  intros run o.
  destruct run as [[o0 w'] log0] eqn:Hrun.
  subst o. cbn [returned calls_made fst snd].
  destruct (route_task_spec W self prompt _ _ _ _ _ _ Hrun)
    as (Hcalls & _ & _ & Hcases).
  destruct Hcases as [(pre & ev & -> & Hrej & Hacc) | (Hrej & _ & ->)].
  - destruct (accept_outcome_inv _ _ _ _ Hacc)
      as (r & c & m & Hr & Hs & Hc & Hm & _ & ->).
    assert (Hin : In ev (pre ++ [ev])) by (apply in_or_app; right; now left).
    split; [discriminate |]. intros _. split; [reflexivity |].
    exists ev, r, c, m.
    split; [exact Hin |].
    split; [exact (calls_from_In W self prompt _ _ _ _ _ Hcalls Hin) |].
    repeat split; assumption.
  - split; [| discriminate]. intros _. cbn. repeat split. eauto.
Qed.

End RouteTaskClaims.

(** A result dict of the router built by [__init__] carries one of the four
    model ids. *)
Lemma production_call_model_id {W} (c : ClaudeClient W) (o : OpenAIClient W)
    (g : GeminiClient W) (q : GroqClient W) model_name prompt tt w r w1 :
  _call_model (production_router c o g q) model_name prompt tt w = (Ret r, w1) ->
  exists m, g_model r = Some m /\ In m production_model_ids.
Proof.
  unfold _call_model, production_router. cbn [claude openai gemini groq].
  set (p := _enhance_prompt prompt tt).
  assert (Hcontract : forall call model,
             honours_contract call model -> In model production_model_ids ->
             call w = (Ret r, w1) ->
             exists m, g_model r = Some m /\ In m production_model_ids).
  { intros call model Hc Hin Hcall.
    destruct (Hc w) as (g0 & w0 & Hg & Hshape).
    rewrite Hcall in Hg. injection Hg as <- <-.
    exists model. split; [| exact Hin].
    destruct Hshape as [(content & usage & ->) | (error & ->)]; reflexivity. }
  destruct (model_name =? "claude")%string.
  { apply (Hcontract _ _ (claude_contract W c p _ _ _)). cbn. auto. }
  destruct (model_name =? "gpt-4")%string.
  { apply (Hcontract _ _ (openai_contract W o p _ _ _)). cbn. auto. }
  destruct (model_name =? "gemini")%string.
  { apply (Hcontract _ _ (gemini_contract W g p _ _)). cbn. auto. }
  destruct (model_name =? "groq")%string.
  { apply (Hcontract _ _ (groq_contract W q p _ _ _)). cbn. auto. }
  discriminate.
Qed.

(** C9 (as the code has it): a failure dict has no content, no model and no
    score, and has an error message; a success dict has no error message and
    carries the content and the model id of a successful answer obtained
    during the run, copied as they are.  With the four clients of the
    repository the model id is one of their four ids, hence non-empty; the
    content is whatever the adapter returned and may be the empty string. *)
Theorem route_outcome_shape (W : Type) :
  (forall (self : SmartRouter W) prompt task_type max_attempts w,
      let run := route_task self prompt task_type max_attempts w in
      let o := returned run in
      (o_success o = false ->
         o_content o = None /\ o_model o = None /\ o_quality_score o = None
         /\ exists e, o_error o = Some e)
      /\ (o_success o = true ->
          o_error o = None
          /\ exists ev r content model,
              In ev (calls_made run)
              /\ ev_result ev = Ret r /\ g_success r = true
              /\ g_content r = Some content /\ g_model r = Some model
              /\ o_content o = Some content /\ o_model o = Some model))
  /\ (forall (c : ClaudeClient W) o g q prompt task_type max_attempts w,
        let run :=
          route_task (production_router c o g q) prompt task_type
            max_attempts w in
        o_success (returned run) = true ->
        exists content model,
          o_content (returned run) = Some content
          /\ o_model (returned run) = Some model
          /\ In model production_model_ids /\ model <> "").
Proof.
  split.
  - intros self prompt task_type max_attempts w run o.
    destruct (outcome_shape_any_router W self prompt task_type max_attempts w)
      as [Hfail Hok].
    split; [exact Hfail |]. intros Hs.
    destruct (Hok Hs)
      as (He & ev & r & c & m & Hin & _ & Hr & Hsr & Hc & Hm & Hoc & Hom).
    split; [exact He |]. exists ev, r, c, m. repeat split; assumption.
  - intros c o g q prompt task_type max_attempts w run Hs.
    destruct (outcome_shape_any_router W (production_router c o g q) prompt
                task_type max_attempts w) as [_ Hok].
    destruct (Hok Hs)
      as (_ & ev & r & content & m & _ & (w0 & w1 & Hcall) & Hr & _ & _ & Hm
          & Hoc & Hom).
    rewrite Hr in Hcall.
    destruct (production_call_model_id _ _ _ _ _ _ _ _ _ _ Hcall)
      as (m' & Hm' & Hin).
    rewrite Hm in Hm'. injection Hm' as <-.
    exists content, m. repeat split; try assumption.
    cbn in Hin. intros ->.
    destruct Hin as [H | [H | [H | [H | []]]]]; discriminate.
Qed.

(** ** UltimateAI.generate *)

Section UltimateProperties.

Import Ultimate UltimateSpec.

Variable W : Type.

Lemma mem_head (k : string) (keys : list string) : mem k (k :: keys) = true.
Proof. unfold mem. cbn. now rewrite String.eqb_refl. Qed.

(** The chosen provider is a key of one of the two client dicts. *)
Lemma choose_provider_configured (self : UltimateAI W) task_type p :
  _choose_provider self task_type = Ret p ->
  mem p (free_clients self) = true \/ mem p (web_clients self) = true.
Proof.
  unfold _choose_provider.
  assert (Hdefault :
            match free_clients self with
            | k :: _ => Ret k
            | [] => match web_clients self with
                    | k :: _ => Ret k
                    | [] => Raise (Exception "No AI providers available")
                    end
            end = Ret p ->
            mem p (free_clients self) = true \/ mem p (web_clients self) = true).
  { destruct (free_clients self) as [| k ks].
    - destruct (web_clients self) as [| k ks]; [discriminate |].
      intros [= <-]. right. apply mem_head.
    - intros [= <-]. left. apply mem_head. }
  assert (Hcomplex :
            (if mem task_type complex_tasks
             then if mem "claude_web" (web_clients self) then Ret "claude_web"
                  else if mem "chatgpt_web" (web_clients self)
                       then Ret "chatgpt_web"
                       else match free_clients self with
                            | k :: _ => Ret k
                            | [] => match web_clients self with
                                    | k :: _ => Ret k
                                    | [] => Raise (Exception "No AI providers available")
                                    end
                            end
             else match free_clients self with
                  | k :: _ => Ret k
                  | [] => match web_clients self with
                          | k :: _ => Ret k
                          | [] => Raise (Exception "No AI providers available")
                          end
                  end) = Ret p ->
            mem p (free_clients self) = true \/ mem p (web_clients self) = true).
  { destruct (mem task_type complex_tasks); [| exact Hdefault].
    destruct (mem "claude_web" (web_clients self)) eqn:E1;
      [intros [= <-]; now right |].
    destruct (mem "chatgpt_web" (web_clients self)) eqn:E2;
      [intros [= <-]; now right | exact Hdefault]. }
  destruct (mem task_type simple_tasks && prefer_free self); [| exact Hcomplex].
  destruct (mem "groq" (free_clients self)) eqn:E1;
    [intros [= <-]; now left |].
  destruct (mem "gemini" (free_clients self)) eqn:E2;
    [intros [= <-]; now left | exact Hcomplex].
Qed.

(** When the [try] block raises, the object is unchanged and, for a
    configured provider, exactly that provider was invoked. *)
Lemma try_provider_raises (self : UltimateAI W) p prompt system_prompt w :
  mem p (free_clients self) = true \/ mem p (web_clients self) = true ->
  provider_fails self p prompt system_prompt w ->
  exists e w1,
    try_provider self p prompt system_prompt w = (Raise e, self, w1, [p]).
Proof.
  intros Hconf [e He]. unfold try_provider in *.
  destruct (mem p (free_clients self)) eqn:Hfree.
  - destruct (_call_free_ai self p prompt system_prompt w) as [[a | e'] w1];
      [discriminate | eauto].
  - destruct Hconf as [Hc | Hc]; [discriminate |]. rewrite Hc in *.
    destruct (_call_web_interface self p prompt system_prompt w)
      as [[a | e'] w1]; [discriminate | eauto].
Qed.

(** Some other configured provider makes [_get_fallback] answer with a
    provider different from the failed one. *)
Lemma get_fallback_other (self : UltimateAI W) (p q : string) :
  In q (configured self) -> q <> p ->
  exists f, _get_fallback self p = Some f /\ f <> p /\ In f (configured self).
Proof.
  intros Hin Hne. unfold _get_fallback. fold (configured self).
  assert (Hq : In q (filter (fun x => negb (x =? p)%string) (configured self))).
  { apply filter_In. split; [exact Hin |].
    apply negb_true_iff. now apply String.eqb_neq. }
  destruct (filter _ (configured self)) as [| f fs] eqn:Hf; [contradiction |].
  exists f. split; [reflexivity |].
  assert (Hfin : In f (filter (fun x => negb (x =? p)%string) (configured self)))
    by (rewrite Hf; now left).
  apply filter_In in Hfin as [Hfin Hfp].
  apply negb_true_iff in Hfp. apply String.eqb_neq in Hfp. auto.
Qed.

Lemma truthy_nonempty (s : string) : s <> "" -> truthy s = true.
Proof. destruct s; [contradiction | reflexivity]. Qed.

(** The depth bound is no obstacle when the provider answers: one level of
    recursion is enough for [generate] to return. *)
Lemma generate_returns_when_provider_answers (self : UltimateAI W)
    prompt system_prompt task_type p answer self1 w w1 calls depth :
  _choose_provider self task_type = Ret p ->
  try_provider self p prompt system_prompt w = (Ret answer, self1, w1, calls) ->
  generate (S depth) self prompt system_prompt task_type w
  = (Ret answer, self1, w1, calls).
Proof. intros Hp Ht. cbn [generate]. now rewrite Hp, Ht. Qed.

(** The [try] block invokes nothing but the given provider. *)
Lemma try_provider_calls (self : UltimateAI W) p prompt system_prompt w :
  Forall (eq p) (snd (try_provider self p prompt system_prompt w)).
Proof.
  unfold try_provider.
  destruct (mem p (free_clients self)).
  - destruct (_call_free_ai self p prompt system_prompt w) as [[a | e] w1];
      cbn; auto.
  - destruct (mem p (web_clients self)); [| cbn; auto].
    destruct (_call_web_interface self p prompt system_prompt w)
      as [[a | e] w1]; cbn; auto.
Qed.

(** C10: let [p] be the provider chosen for the task type and let some other
    provider be configured (the names being non-empty).  Whenever the call to
    [p] raises, [generate] calls itself with the same object and the same
    arguments, from the world the failed call left; so every provider call of
    a run goes to [p], and the provider named by [_get_fallback], which
    differs from [p], is never called.  If the call to [p] raises from every
    world, the run does end: whatever nesting depth the recursion limit
    leaves, [generate] spends all of it on calls to [p] and then raises
    [RecursionError], the object unchanged; it returns no answer and does not
    raise All AI providers failed. *)
Theorem generate_retries_same_provider_to_the_limit (self : UltimateAI W)
    (prompt system_prompt task_type p q : string) :
  _choose_provider self task_type = Ret p ->
  In q (configured self) -> q <> p ->
  Forall (fun k => k <> "") (configured self) ->
  (forall depth w,
      provider_fails self p prompt system_prompt w ->
      exists e w1,
        try_provider self p prompt system_prompt w = (Raise e, self, w1, [p])
        /\ generate (S depth) self prompt system_prompt task_type w
           = let '(r, self2, w2, calls) :=
               generate depth self prompt system_prompt task_type w1 in
             (r, self2, w2, p :: calls))
  /\ (exists f, _get_fallback self p = Some f /\ f <> p
                /\ forall depth w,
                    ~ In f (snd (generate depth self prompt system_prompt
                                   task_type w)))
  /\ ((forall w, provider_fails self p prompt system_prompt w) ->
      forall depth w, exists msg w',
        generate depth self prompt system_prompt task_type w
        = (Raise (RecursionError msg), self, w', repeat p depth)).
Proof.
  intros Hp Hq Hne Hnames.
  pose proof (choose_provider_configured self task_type p Hp) as Hconf.
  destruct (get_fallback_other self p q Hq Hne) as (f & Hf & Hfp & Hfin).
  assert (Htruthy : truthy f = true).
  { apply truthy_nonempty. rewrite Forall_forall in Hnames. now apply Hnames. }
  assert (Hstep : forall depth w,
             provider_fails self p prompt system_prompt w ->
             exists e w1,
               try_provider self p prompt system_prompt w
               = (Raise e, self, w1, [p])
               /\ generate (S depth) self prompt system_prompt task_type w
                  = let '(r, self2, w2, calls) :=
                      generate depth self prompt system_prompt task_type w1 in
                    (r, self2, w2, p :: calls)).
  { intros depth w Hfail.
    destruct (try_provider_raises self p prompt system_prompt w Hconf Hfail)
      as (e & w1 & Ht).
    exists e, w1. split; [exact Ht |].
    cbn [generate]. rewrite Hp, Ht, Hf, Htruthy.
    destruct (generate depth self prompt system_prompt task_type w1)
      as [[[r s2] w2] calls]. reflexivity. }
  assert (Hcalls : forall depth w,
             Forall (eq p) (snd (generate depth self prompt system_prompt
                                   task_type w))).
  { induction depth as [| depth IH]; intros w; [constructor |].
    cbn [generate]. rewrite Hp.
    pose proof (try_provider_calls self p prompt system_prompt w) as Hc.
    destruct (try_provider self p prompt system_prompt w)
      as [[[[answer | e] self1] w1] calls] eqn:Ht; cbn [snd] in Hc |- *;
      [exact Hc |].
    assert (self1 = self) as ->.
    { assert (Hfail : provider_fails self p prompt system_prompt w)
        by (exists e; now rewrite Ht).
      destruct (try_provider_raises self p prompt system_prompt w Hconf Hfail)
        as (e' & w1' & Ht').
      congruence. }
    rewrite Hf, Htruthy.
    specialize (IH w1).
    destruct (generate depth self prompt system_prompt task_type w1)
      as [[[r s2] w2] calls']. cbn [snd] in IH |- *.
    apply Forall_app. now split. }
  split; [exact Hstep |]. split.
  - exists f. split; [exact Hf |]. split; [exact Hfp |].
    intros depth w Hin.
    pose proof (Hcalls depth w) as Hall. rewrite Forall_forall in Hall.
    apply Hall in Hin. congruence.
  - intros Hfail. induction depth as [| depth IH]; intros w.
    + exists "maximum recursion depth exceeded", w. reflexivity.
    + destruct (Hstep depth w (Hfail w)) as (e & w1 & _ & ->).
      destruct (IH w1) as (msg & w' & ->). exists msg, w'. reflexivity.
Qed.

End UltimateProperties.

(** ** Concrete runs *)

Section Scenarios.

Import Doubles.

(** C6 on [A, B]: A answers with a score of at least 0.7 in the first
    attempt; the only call made is the one to A. *)
Lemma short_circuit_witness :
  let run := route_task router "sketch the service" (Some ARCHITECTURE) 2
               good_first in
  let r := gen_ok good_content "test-model" [] in
  schedule_of (calls_made run) = [(0, "claude")]
  /\ (0.7 <=? quality_check r)%float = true
  /\ returned run = success_dict r ARCHITECTURE 0 good_content "test-model".
Proof.
  cbv zeta.
  split; [vm_compute; reflexivity |].
  split; [vm_compute; reflexivity |].
  exact (proj1 (proj2
    (short_circuit_on_good_quality World router "sketch the service"
       (Some ARCHITECTURE) 2 good_first
       [] (mkCallEvent 0 "claude" (ok good_content)) []
       (gen_ok good_content "test-model" []) good_content "test-model"
       eq_refl eq_refl eq_refl eq_refl eq_refl eq_refl))).
Defined.

(** C1 on [A, B] with one attempt: A is down, B answers with a low score and
    is returned. *)
Lemma final_attempt_witness :
  let run := route_task router "sketch the service" (Some ARCHITECTURE) 1
               down_then_low in
  let r := gen_ok "ok" "test-model" [] in
  schedule_of (calls_made run) = [(0, "claude"); (0, "gpt-4")]
  /\ returned run = success_dict r ARCHITECTURE (1 - 1) "ok" "test-model"
  /\ o_attempts (returned run) = 1.
Proof.
  cbv zeta.
  split; [vm_compute; reflexivity |].
  pose proof
    (final_attempt_returns_first_success World router "sketch the service"
       (Some ARCHITECTURE) 1 down_then_low
       [mkCallEvent 0 "claude" (failing "A is down")]
       (mkCallEvent 0 "gpt-4" (ok "ok")) []
       (gen_ok "ok" "test-model" []) "ok" "test-model"
       eq_refl eq_refl eq_refl eq_refl eq_refl eq_refl) as H.
  cbv zeta in H. destruct H as (_ & Hret & _ & Hatt & _).
  split; [exact Hret | exact Hatt].
Defined.

(** C1 fails as stated: with one attempt over [A, B], the full pass would
    give two successful answers, scoring 0.5 (A) and 0.6 (B), none reaching
    0.7; the answer returned is A's, with score 0.5, and B, next in the list,
    is not called. *)
Lemma final_attempt_not_best :
  let run := route_task router "sketch the service" (Some ARCHITECTURE) 1
               low_then_better in
  preferred_models router ARCHITECTURE = ["claude"; "gpt-4"]
  /\ full_pass router "sketch the service" ARCHITECTURE ["claude"; "gpt-4"]
       low_then_better = [ok "ok"; ok "because"]
  /\ map answer_score [ok "ok"; ok "because"] = [0.5; 0.6]%float
  /\ (0.6 <? 0.7)%float = true
  /\ o_success (returned run) = true
  /\ o_content (returned run) = Some "ok"
  /\ o_quality_score (returned run) = Some 0.5%float
  /\ (0.5 <? 0.6)%float = true
  /\ schedule_of (calls_made run) = [(0, "claude")].
Proof. cbv zeta. repeat split; vm_compute; reflexivity. Qed.

(** C2 on [A, B] with one attempt: A's answer scores 0.5 and is returned. *)
Lemma single_attempt_witness :
  (quality_check (gen_ok "ok" "test-model" []) <? 0.7)%float = true
  /\ route_task router "sketch the service" (Some ARCHITECTURE) 1
       low_then_better
     = (mkRouteOutcome true (Some "ok") (Some "test-model") "architecture"
          (Some (quality_check (gen_ok "ok" "test-model" []))) 1 (Some [])
          None,
        mkWorld [] [ok "because"],
        [mkCallEvent 0 "claude" (ok "ok")]).
Proof.
  split; [vm_compute; reflexivity |].
  exact (single_attempt_accepts_low_quality World router "sketch the service"
           (Some ARCHITECTURE) low_then_better "claude" ["gpt-4"]
           (gen_ok "ok" "test-model" []) (mkWorld [] [ok "because"])
           "ok" "test-model" eq_refl eq_refl eq_refl eq_refl eq_refl eq_refl).
Defined.

(** C3 on [A, B] with two attempts, both always erroring: four calls in the
    order A, B, A, B, then the failure dict with B's second error. *)
Lemma all_down_witness :
  let run := route_task router "sketch the service" (Some ARCHITECTURE) 2
               both_down in
  Forall call_failed (calls_made run)
  /\ o_success (returned run) = false
  /\ schedule_of (calls_made run)
     = [(0, "claude"); (0, "gpt-4"); (1, "claude"); (1, "gpt-4")]
  /\ o_attempts (returned run) = 2
  /\ o_error (returned run)
     = Some "All models failed. Last error: B error 2".
Proof.
  cbv zeta.
  pose proof
    (failure_exactly_when_nothing_accepted World router "sketch the service"
       (Some ARCHITECTURE) 2 both_down) as H.
  cbv zeta in H. destruct H as (_ & Hall & Hfail & Hsched).
  assert (Hdown : Forall call_failed
                    (calls_made (route_task router "sketch the service"
                                   (Some ARCHITECTURE) 2 both_down))).
  { vm_compute. repeat constructor. }
  pose proof (Hall Hdown) as Hs.
  destruct (Hfail Hs) as (Hcalls & Hatt & _ & _ & Hlast).
  split; [exact Hdown |]. split; [exact Hs |].
  split; [rewrite Hcalls; apply Hsched |]. split; [exact Hatt |].
  apply (Hlast [mkCallEvent 0 "claude" (failing "A error 1");
                mkCallEvent 0 "gpt-4" (failing "B error 1");
                mkCallEvent 1 "claude" (failing "A error 2")]
               (mkCallEvent 1 "gpt-4" (failing "B error 2")) []
               "B error 2");
    [reflexivity | reflexivity | constructor].
Defined.

(** C3 fails as stated: A succeeds with a low score in the first attempt,
    then every call fails; the run ends in a failure dict although one
    adapter call succeeded. *)
Lemma failure_after_discarded_success :
  let run := route_task router "sketch the service" (Some ARCHITECTURE) 2
               low_then_down in
  o_success (returned run) = false
  /\ map ev_result (calls_made run)
     = [ok "ok"; failing "B error 1"; failing "A error 2";
        failing "B error 2"]
  /\ g_success (gen_ok "ok" "test-model" []) = true
  /\ o_error (returned run)
     = Some "All models failed. Last error: B error 2".
Proof. cbv zeta. repeat split; vm_compute; reflexivity. Qed.

(** C9 fails as stated: the remote service answers with an empty text; the
    router returns a success dict whose content is the empty string. *)
Lemma success_with_empty_content :
  let run := route_task EmptyAnswer.router "hello" None 1 tt in
  o_success (returned run) = true
  /\ o_content (returned run) = Some ""
  /\ o_model (returned run) = Some "claude-3-sonnet-20240229"
  /\ o_quality_score (returned run) = Some 0.5%float.
Proof. cbv zeta. repeat split; vm_compute; reflexivity. Qed.

End Scenarios.

Section UltimateScenario.

Import Ultimate UltimateSpec.

(** C10 with Groq and Gemini configured and unreachable: Groq is chosen,
    Gemini is the fallback, and with room for five nested calls the run ends
    in [RecursionError] after five calls, all to Groq. *)
Lemma retry_witness :
  _choose_provider two_free "general" = Ret "groq"
  /\ _get_fallback two_free "groq" = Some "gemini"
  /\ exists msg w',
       generate 5 two_free "hi" "" "general" tt
       = (Raise (RecursionError msg), two_free, w', repeat "groq" 5).
Proof.
  split; [reflexivity |]. split; [reflexivity |].
  refine (proj2 (proj2
    (generate_retries_same_provider_to_the_limit unit two_free "hi" ""
       "general" "groq" "gemini" eq_refl _ _ _)) _ 5%nat tt).
  - right. left. reflexivity.
  - discriminate.
  - repeat constructor; discriminate.
  - intros w. exists (Exception "connection refused"). reflexivity.
Defined.

(** C10 fails as stated: with Groq and Gemini configured and unreachable,
    Groq is chosen and fails on every call while Gemini is configured; with
    room for 1000 nested calls the run of [generate] comes to an end, raising
    [RecursionError] after 1000 calls that all went to Groq. *)
Lemma retry_ends_in_recursion_error :
  _choose_provider two_free "general" = Ret "groq"
  /\ In "gemini" (configured two_free)
  /\ provider_fails two_free "groq" "hi" "" tt
  /\ generate 1000 two_free "hi" "" "general" tt
     = (Raise (RecursionError "maximum recursion depth exceeded"),
        two_free, tt, repeat "groq" 1000).
Proof.
  split; [reflexivity |].
  split; [right; left; reflexivity |].
  split; [exists (Exception "connection refused"); reflexivity |].
  vm_compute. reflexivity.
Qed.

(** With a provider that answers, one level of [generate] returns the
    answer and counts the call. *)
Lemma generate_answers :
  generate 1 one_free "hi" "" "general" tt
  = (Ret (mkAnswer (Some "hello") "groq" 0.0%float),
     mkUltimateAI unit reachable true ["groq"] [] 1 0, tt, ["groq"]).
Proof.
  apply (generate_returns_when_provider_answers unit one_free "hi" "" "general"
           "groq"); reflexivity.
Qed.

End UltimateScenario.

(** * Further properties *)

(** ** The classifier, continued *)

Lemma string_app_assoc (a b c : string) : (a ++ b) ++ c = a ++ b ++ c.
Proof. induction a as [| x a IH]; cbn; [reflexivity | now rewrite IH]. Qed.

Lemma contains_trans (inner outer s : string) :
  PyStr.contains inner outer = true -> PyStr.contains outer s = true ->
  PyStr.contains inner s = true.
Proof.
  intros Hi Ho.
  apply contains_substring in Hi as (a & b & ->).
  apply contains_substring in Ho as (pre & post & ->).
  apply contains_substring. exists (pre ++ a), (b ++ post).
  now rewrite !string_app_assoc.
Qed.

Lemma any_in_intro (k : string) (keywords : list string) (s : string) :
  In k keywords -> PyStr.contains k s = true ->
  PyStr.any_in keywords s = true.
Proof.
  intros Hin Hc. unfold PyStr.any_in. apply existsb_exists. eauto.
Qed.

Lemma lower_char_idem (c : ascii) :
  PyStr.lower_char (PyStr.lower_char c) = PyStr.lower_char c.
Proof. destruct c as [[] [] [] [] [] [] [] []]; reflexivity. Qed.

Lemma is_space_lower_char (c : ascii) :
  PyStr.is_space (PyStr.lower_char c) = PyStr.is_space c.
Proof. destruct c as [[] [] [] [] [] [] [] []]; reflexivity. Qed.

Lemma lower_idem (s : string) : PyStr.lower (PyStr.lower s) = PyStr.lower s.
Proof.
  induction s as [| c s IH]; cbn; [reflexivity |].
  now rewrite lower_char_idem, IH.
Qed.

Lemma count_words_lower (in_word : bool) (s : string) :
  PyStr.count_words in_word (PyStr.lower s) = PyStr.count_words in_word s.
Proof.
  revert in_word. induction s as [| c s IH]; intros in_word; cbn [PyStr.lower PyStr.count_words];
    [reflexivity |].
  rewrite is_space_lower_char, !IH. reflexivity.
Qed.

(** X1: the classification ignores letter case: two prompts with the same
    lower-cased text get the same task type. *)
Theorem classify_task_ignores_case (p q : string) :
  PyStr.lower p = PyStr.lower q -> classify_task p = classify_task q.
Proof.
  intros H.
  assert (Hw : PyStr.split_len p = PyStr.split_len q).
  { unfold PyStr.split_len.
    now rewrite <- (count_words_lower false p), <- (count_words_lower false q), H. }
  unfold classify_task. now rewrite H, Hw.
Qed.

Lemma classify_task_ignores_case_witness :
  classify_task "Fix The Login BUG" = classify_task "fix the login bug".
Proof. apply classify_task_ignores_case. reflexivity. Defined.

(** The keywords of later rows that contain a creative-ui keyword. *)
Lemma creative_ui_shadows (k s : string) :
  In k ["quick"; "build"; "design pattern"; "system design"] ->
  PyStr.contains k s = true ->
  PyStr.any_in Keywords.creative_ui s = true.
Proof.
  intros Hin Hc. cbn in Hin.
  destruct Hin as [<- | [<- | [<- | [<- | []]]]].
  - apply (any_in_intro "ui"); [cbn; tauto |].
    now apply (contains_trans "ui" "quick").
  - apply (any_in_intro "ui"); [cbn; tauto |].
    now apply (contains_trans "ui" "build").
  - apply (any_in_intro "design"); [cbn; tauto |].
    now apply (contains_trans "design" "design pattern").
  - apply (any_in_intro "design"); [cbn; tauto |].
    now apply (contains_trans "design" "system design").
Qed.

(** X2: four keywords of later rows can never decide: a prompt that contains
    quick, build, design pattern or system design (in any letter case) also
    contains the creative-ui keyword ui or design, so it is classified as
    creative-ui, not as fast-simple, planning or architecture. *)
Theorem shadowed_keywords_give_creative_ui (prompt k : string) :
  In k ["quick"; "build"; "design pattern"; "system design"] ->
  PyStr.contains k (PyStr.lower prompt) = true ->
  classify_task prompt = CREATIVE_UI.
Proof.
  intros Hin Hc. unfold classify_task.
  now rewrite (creative_ui_shadows k _ Hin Hc).
Qed.

Lemma shadowed_keywords_witness :
  classify_task "Build a REST API server" = CREATIVE_UI.
Proof.
  apply (shadowed_keywords_give_creative_ui _ "build");
    [cbn; tauto | reflexivity].
Defined.

(** X3: a prompt is classified as fast-simple only if it has fewer than 20
    words, contains simple, basic or small, and matches no keyword of the
    seven rows before. *)
Theorem fast_simple_only_if (prompt : string) :
  classify_task prompt = FAST_SIMPLE ->
  PyStr.split_len prompt < 20
  /\ PyStr.any_in ["simple"; "basic"; "small"] (PyStr.lower prompt) = true
  /\ forall keywords,
       In keywords [Keywords.creative_ui; Keywords.modeling_3d;
                    Keywords.multimodal; Keywords.architecture;
                    Keywords.debugging; Keywords.planning;
                    Keywords.refactoring] ->
       PyStr.any_in keywords (PyStr.lower prompt) = false.
Proof.
  unfold classify_task.
  set (s := PyStr.lower prompt).
  destruct (PyStr.any_in Keywords.creative_ui s) eqn:E1; [discriminate |].
  destruct (PyStr.any_in Keywords.modeling_3d s) eqn:E2; [discriminate |].
  destruct (PyStr.any_in Keywords.multimodal s) eqn:E3; [discriminate |].
  destruct (PyStr.any_in Keywords.architecture s) eqn:E4; [discriminate |].
  destruct (PyStr.any_in Keywords.debugging s) eqn:E5; [discriminate |].
  destruct (PyStr.any_in Keywords.planning s) eqn:E6; [discriminate |].
  destruct (PyStr.any_in Keywords.refactoring s) eqn:E7; [discriminate |].
  destruct (PyStr.split_len prompt <? 20) eqn:Ew; cbn [andb]; [| discriminate].
  destruct (PyStr.any_in Keywords.fast_simple s) eqn:E8; [| discriminate].
  intros _. split; [lia |]. split.
  - destruct (PyStr.contains "quick" s) eqn:Eq.
    + rewrite (creative_ui_shadows "quick" s) in E1;
        [discriminate | cbn; tauto | exact Eq].
    + unfold PyStr.any_in, Keywords.fast_simple in E8 |- *.
      cbn [existsb] in E8 |- *. rewrite Eq in E8.
      destruct (PyStr.contains "simple" s), (PyStr.contains "basic" s),
        (PyStr.contains "small" s); cbn in E8 |- *; congruence.
  - intros keywords Hin. cbn in Hin.
    destruct Hin as [<- | [<- | [<- | [<- | [<- | [<- | [<- | []]]]]]]];
      assumption.
Qed.

Lemma fast_simple_only_if_witness :
  PyStr.split_len "a simple sum" < 20
  /\ PyStr.any_in ["simple"; "basic"; "small"] (PyStr.lower "a simple sum")
     = true.
Proof.
  destruct (fast_simple_only_if "a simple sum" eq_refl) as (H1 & H2 & _).
  split; assumption.
Defined.

(** ** The scorer, continued *)

(** X4: a successful result reaches the acceptance threshold 0.7 exactly
    when its content has between 100 and 2000 characters or contains the
    fence marker; an explanatory word alone gives 0.6. *)
Theorem quality_reaches_threshold_iff (r : GenResult) :
  g_success r = true ->
  let content := get_default (g_content r) "" in
  (0.7 <=? quality_check r)%float
  = in_length_range content || fenced content.
Proof.
  intros Hs content. rewrite (quality_check_success r Hs). fold content.
  destruct (in_length_range content), (fenced content), (explained content);
    reflexivity.
Qed.

Lemma quality_reaches_threshold_witness :
  (0.7 <=? quality_check (gen_ok "because it works" "m" []))%float = false.
Proof.
  exact (quality_reaches_threshold_iff (gen_ok "because it works" "m" [])
           eq_refl).
Defined.

(** ** The router, continued *)

Section RouteTaskFurther.

Variable W : Type.
Variable self : SmartRouter W.
Variable prompt : string.

Lemma length_range (n : Z) : List.length (range n) = Z.to_nat n.
Proof. unfold range. now rewrite length_map, length_seq. Qed.

Lemma length_schedule_of (log : list CallEvent) :
  List.length (schedule_of log) = List.length log.
Proof. unfold schedule_of. apply length_map. Qed.

Lemma length_full_schedule (n : Z) (models : list string) :
  List.length (full_schedule (range n) models)
  = (Z.to_nat n * List.length models)%nat.
Proof. unfold full_schedule. now rewrite length_prod, length_range. Qed.

(** Every call of a run is one of the scheduled (attempt, provider) pairs. *)
Lemma calls_are_scheduled (task_type : option TaskType) (max_attempts : Z)
    (w : W) :
  let run := route_task self prompt task_type max_attempts w in
  let tt := resolved_task_type prompt task_type in
  Forall (fun ev => In (ev_model ev) (preferred_models self tt)
                    /\ 0 <= ev_attempt ev < max_attempts)
         (calls_made run).
Proof.
  intros run tt. destruct run as [[o w'] log] eqn:Hrun. cbn [calls_made snd].
  destruct (route_task_spec W self prompt _ _ _ _ _ _ Hrun)
    as (_ & _ & (rest & Hsched) & _).
  fold tt in Hsched. apply Forall_forall. intros ev Hin.
  assert (Hp : In (ev_attempt ev, ev_model ev)
                 (full_schedule (range max_attempts) (preferred_models self tt))).
  { rewrite Hsched. apply in_or_app. left.
    unfold schedule_of. apply in_map_iff. eauto. }
  unfold full_schedule in Hp. apply in_prod_iff in Hp as [Ha Hm].
  split; [exact Hm | now apply in_range].
Qed.

(** X5: a run makes at most [max_attempts] times the length of the preference
    list adapter calls, and exactly that many when it ends in a failure dict;
    with [max_attempts <= 0] or an empty list it makes no call and returns
    the failure dict whose message ends in the word None. *)
Theorem call_count_bounded (task_type : option TaskType) (max_attempts : Z)
    (w : W) :
  let run := route_task self prompt task_type max_attempts w in
  let tt := resolved_task_type prompt task_type in
  let models := preferred_models self tt in
  (List.length (calls_made run) <= Z.to_nat max_attempts * List.length models)%nat
  /\ (o_success (returned run) = false ->
      List.length (calls_made run)
      = (Z.to_nat max_attempts * List.length models)%nat)
  /\ (max_attempts <= 0 \/ models = [] ->
      calls_made run = []
      /\ returned run
         = mkRouteOutcome false None None (TaskType_value tt) None
             max_attempts None
             (Some "All models failed. Last error: None")).
Proof.
  intros run tt models. destruct run as [[o w'] log] eqn:Hrun.
  cbn [calls_made returned fst snd].
  destruct (route_task_spec W self prompt _ _ _ _ _ _ Hrun)
    as (_ & _ & (rest & Hsched) & Hcases).
  fold tt in Hsched, Hcases. fold models in Hsched, Hcases.
  assert (Hlen : (List.length log + List.length rest
                  = Z.to_nat max_attempts * List.length models)%nat).
  { rewrite <- length_full_schedule, Hsched, List.length_app,
      length_schedule_of. reflexivity. }
  split; [lia |]. split.
  - intros Hs.
    destruct Hcases as [(pre & ev & -> & _ & Hacc) | (_ & Hfull & _)].
    + destruct (accept_outcome_inv _ _ _ _ Hacc)
        as (r & c & m & _ & _ & _ & _ & _ & ->).
      discriminate.
    + now rewrite <- length_full_schedule, <- Hfull, length_schedule_of.
  - intros Hzero.
    assert (Hnil : log = []).
    { assert ((Z.to_nat max_attempts * List.length models = 0)%nat).
      { destruct Hzero as [Hm | ->]; [| cbn; lia].
        replace (Z.to_nat max_attempts) with 0%nat by lia. reflexivity. }
      destruct log; [reflexivity | cbn in Hlen; lia]. }
    subst log. split; [reflexivity |].
    destruct Hcases as [(pre & ev & Heq & _) | (_ & _ & ->)].
    + destruct pre; discriminate.
    + reflexivity.
Qed.

(** X6: in a success dict [attempts] lies between 1 and [max_attempts], the
    score is at least 0.5 and below 1, and a score below 0.7 occurs only with
    [attempts = max_attempts]. *)
Theorem success_dict_fields (task_type : option TaskType) (max_attempts : Z)
    (w : W) :
  let run := route_task self prompt task_type max_attempts w in
  o_success (returned run) = true ->
  1 <= o_attempts (returned run) <= max_attempts
  /\ exists q,
       o_quality_score (returned run) = Some q
       /\ (0.5 <=? q)%float = true /\ (q <? 1.0)%float = true
       /\ ((0.7 <=? q)%float = true
           \/ o_attempts (returned run) = max_attempts).
Proof.
  intros run. destruct run as [[o w'] log] eqn:Hrun. cbn [returned fst].
  destruct (route_task_spec W self prompt _ _ _ _ _ _ Hrun)
    as (_ & Hatt & _ & Hcases).
  destruct Hcases as [(pre & ev & -> & _ & Hacc) | (_ & _ & ->)];
    [| discriminate].
  intros _.
  destruct (accept_outcome_inv _ _ _ _ Hacc)
    as (r & c & m & _ & Hs & _ & _ & Hq & ->).
  apply Forall_app in Hatt as [_ Hatt]. inversion Hatt as [| ? ? Hev _]; subst.
  cbn. split; [lia |].
  exists (quality_check r).
  destruct (quality_check_success_bounds r Hs) as [Hlo Hhi].
  repeat split; try assumption.
  destruct Hq as [Hq | Hq]; [now left | right; lia].
Qed.

(** X7: the [task_type] field of the returned dict is the value of the
    requested task type when one is given, whatever the classifier would say
    of the prompt, and the value of [classify_task(prompt)] otherwise; every
    call goes to a provider of that task type's preference list. *)
Theorem task_type_decides_providers (max_attempts : Z) (w : W) :
  (forall t,
      let run := route_task self prompt (Some t) max_attempts w in
      o_task_type (returned run) = TaskType_value t
      /\ Forall (fun ev => In (ev_model ev) (preferred_models self t))
                (calls_made run))
  /\ (let run := route_task self prompt None max_attempts w in
      o_task_type (returned run) = TaskType_value (classify_task prompt)
      /\ Forall (fun ev => In (ev_model ev)
                             (preferred_models self (classify_task prompt)))
                (calls_made run)).
Proof.
  assert (H : forall task_type,
             let run := route_task self prompt task_type max_attempts w in
             let tt := resolved_task_type prompt task_type in
             o_task_type (returned run) = TaskType_value tt
             /\ Forall (fun ev => In (ev_model ev) (preferred_models self tt))
                       (calls_made run)).
  { intros task_type run tt. split.
    - destruct run as [[o w'] log] eqn:Hrun. cbn [returned fst].
      destruct (route_task_spec W self prompt _ _ _ _ _ _ Hrun)
        as (_ & _ & _ & Hcases).
      destruct Hcases as [(pre & ev & -> & _ & Hacc) | (_ & _ & ->)];
        [| reflexivity].
      destruct (accept_outcome_inv _ _ _ _ Hacc)
        as (r & c & m & _ & _ & _ & _ & _ & ->).
      reflexivity.
    - eapply Forall_impl; [| apply calls_are_scheduled]. cbn. tauto. }
  split; [intros t; apply (H (Some t)) | apply (H None)].
Qed.

End RouteTaskFurther.

Lemma success_dict_fields_witness :
  let run := route_task Doubles.router "sketch the service"
               (Some ARCHITECTURE) 2 Doubles.good_first in
  1 <= o_attempts (returned run) <= 2
  /\ exists q,
       o_quality_score (returned run) = Some q
       /\ (0.5 <=? q)%float = true /\ (q <? 1.0)%float = true
       /\ ((0.7 <=? q)%float = true \/ o_attempts (returned run) = 2).
Proof.
  exact (success_dict_fields Doubles.World Doubles.router "sketch the service"
           (Some ARCHITECTURE) 2 Doubles.good_first eq_refl).
Defined.

(** ** The router with the repository's clients *)

Section ProductionRouter.

Variable W : Type.
Variable c : ClaudeClient W.
Variable o : OpenAIClient W.
Variable g : GeminiClient W.
Variable q : GroqClient W.

Lemma production_call_returns model_name prompt tt w :
  In model_name ["claude"; "gpt-4"; "gemini"; "groq"] ->
  exists r w1,
    _call_model (production_router c o g q) model_name prompt tt w
    = (Ret r, w1)
    /\ adapter_shaped r.
Proof.
  intros Hin. unfold _call_model, production_router.
  cbn [claude openai gemini groq].
  set (p := _enhance_prompt prompt tt).
  assert (Hcontract : forall call model,
             honours_contract call model -> In model production_model_ids ->
             exists r w1, call w = (Ret r, w1) /\ adapter_shaped r).
  { intros call model Hc Hm. destruct (Hc w) as (r & w1 & Hr & Hshape).
    exists r, w1. split; [exact Hr |]. exists model. auto. }
  cbn in Hin. destruct Hin as [<- | [<- | [<- | [<- | []]]]]; cbn.
  - apply (Hcontract _ _ (claude_contract W c p _ _ _)). cbn. auto.
  - apply (Hcontract _ _ (openai_contract W o p _ _ _)). cbn. auto.
  - apply (Hcontract _ _ (gemini_contract W g p _ _)). cbn. auto.
  - apply (Hcontract _ _ (groq_contract W q p _ _ _)). cbn. auto.
Qed.

Lemma production_preferences_known (t : TaskType) :
  incl (preferred_models (production_router c o g q) t)
       ["claude"; "gpt-4"; "gemini"; "groq"]
  /\ (1 <= List.length (preferred_models (production_router c o g q) t) <= 3)%nat.
Proof.
  destruct t; cbn; (split; [| lia]); intros x Hx; cbn in Hx |- *; tauto.
Qed.

(** X8: with the four clients and the preference table of [__init__], every
    call of a run returns an adapter result dict (the success or the failure
    shape, with one of the four model ids): no call raises, and no name of
    the table is unknown to [_call_model]. *)
Theorem production_calls_return_dicts prompt (task_type : option TaskType)
    (max_attempts : Z) (w : W) :
  let run :=
    route_task (production_router c o g q) prompt task_type max_attempts w in
  Forall (fun ev => exists r, ev_result ev = Ret r /\ adapter_shaped r)
         (calls_made run).
Proof.
  intros run.
  pose proof (calls_are_scheduled W (production_router c o g q) prompt
                task_type max_attempts w) as Hsched.
  cbv zeta in Hsched. fold run in Hsched.
  destruct run as [[out w'] log] eqn:Hrun. cbn [calls_made snd] in *.
  destruct (route_task_spec W _ prompt _ _ _ _ _ _ Hrun) as (Hcalls & _).
  apply Forall_forall. intros ev Hin.
  rewrite Forall_forall in Hsched. destruct (Hsched ev Hin) as [Hm _].
  apply (proj1 (production_preferences_known _)) in Hm.
  destruct (calls_from_In W _ prompt _ _ _ _ ev Hcalls Hin)
    as (w0 & w1 & Hcall).
  destruct (production_call_returns (ev_model ev) prompt
              (resolved_task_type prompt task_type) w0 Hm)
    as (r & w1' & Hr & Hshape).
  rewrite Hr in Hcall. injection Hcall as Hres _.
  exists r. split; [now symmetry | exact Hshape].
Qed.

(** ** The generate route *)

Lemma run_length_bound (self : SmartRouter W) prompt task_type max_attempts w :
  let run := route_task self prompt task_type max_attempts w in
  (List.length (calls_made run)
   <= Z.to_nat max_attempts
      * List.length (preferred_models self
                       (resolved_task_type prompt task_type)))%nat.
Proof.
  intros run. destruct run as [[out w'] log] eqn:Hrun. cbn [calls_made snd].
  destruct (route_task_spec W self prompt _ _ _ _ _ _ Hrun)
    as (_ & _ & (rest & Hsched) & _).
  rewrite <- length_full_schedule, Hsched, List.length_app,
    length_schedule_of. lia.
Qed.

Lemma run_task_type_field (self : SmartRouter W) prompt task_type
    max_attempts w :
  let run := route_task self prompt task_type max_attempts w in
  o_task_type (returned run)
  = TaskType_value (resolved_task_type prompt task_type)
  /\ (1 <= o_attempts (returned run) <= max_attempts
      \/ o_attempts (returned run) = max_attempts).
Proof.
  intros run. destruct run as [[out w'] log] eqn:Hrun. cbn [returned fst].
  destruct (route_task_spec W self prompt _ _ _ _ _ _ Hrun)
    as (_ & Hatt & _ & Hcases).
  destruct Hcases as [(pre & ev & -> & _ & Hacc) | (_ & _ & ->)];
    [| split; [reflexivity | now right]].
  destruct (accept_outcome_inv _ _ _ _ Hacc)
    as (r & cn & m & _ & _ & _ & _ & _ & ->).
  apply Forall_app in Hatt as [_ Hatt]. inversion Hatt; subst.
  split; [reflexivity | left; cbn; lia].
Qed.

(** X9: looking a task type up by its value gives that task type back, a
    successful lookup returns a member with the value asked for, and every
    value of the request enum names a task type, so the conversion in the
    route handlers cannot raise. *)
Theorem task_type_value_round_trip :
  (forall t, TaskType_of_value (TaskType_value t) = Some t)
  /\ (forall v t, TaskType_of_value v = Some t -> TaskType_value t = v)
  /\ (forall e : Request.TaskTypeEnum,
        exists t, TaskType_of_value (Request.value e) = Some t
                  /\ TaskType_value t = Request.value e).
Proof.
  split; [intros t; destruct t; reflexivity |]. split.
  - intros v t H. unfold TaskType_of_value in H.
    apply find_some in H as [_ H]. now apply String.eqb_eq.
  - intros e. destruct e; eexists; split; reflexivity.
Qed.

(** X10: a request to the generate route, with or without a task type, is
    always routed (the conversion of the task type never raises); the run
    makes at most 6 adapter calls, reports [attempts] 1 or 2, and its
    [task_type] field is the requested value when one was given. *)
Theorem generate_route_bounds prompt
    (request_task_type : option Request.TaskTypeEnum) (w : W) :
  exists run,
    generate_content_route (production_router c o g q) prompt
      request_task_type w = Some run
    /\ (List.length (calls_made run) <= 6)%nat
    /\ (o_attempts (returned run) = 1 \/ o_attempts (returned run) = 2)
    /\ forall e, request_task_type = Some e ->
                 o_task_type (returned run) = Request.value e.
Proof.
  assert (H : forall task_type,
             let run := route_task (production_router c o g q) prompt
                          task_type 2 w in
             (List.length (calls_made run) <= 6)%nat
             /\ (o_attempts (returned run) = 1 \/ o_attempts (returned run) = 2)
             /\ o_task_type (returned run)
                = TaskType_value (resolved_task_type prompt task_type)).
  { intros task_type run.
    pose proof (run_length_bound (production_router c o g q) prompt
                  task_type 2 w) as Hlen.
    pose proof (run_task_type_field (production_router c o g q) prompt
                  task_type 2 w) as [Htt Hatt].
    cbv zeta in Hlen. fold run in Hlen, Htt, Hatt.
    destruct (production_preferences_known
                (resolved_task_type prompt task_type)) as [_ Hn].
    change (Z.to_nat 2) with 2%nat in Hlen.
    repeat split; [lia | lia | exact Htt]. }
  unfold generate_content_route.
  destruct request_task_type as [e |].
  - assert (Ht : Ultimate.truthy (Request.value e) = true)
      by (destruct e; reflexivity).
    rewrite Ht.
    assert (He : exists t, TaskType_of_value (Request.value e) = Some t
                           /\ TaskType_value t = Request.value e)
      by (destruct e; eexists; split; reflexivity).
    destruct He as (t & -> & Hv).
    eexists. split; [reflexivity |].
    destruct (H (Some t)) as (Hlen & Hatt & Htt).
    repeat split; try assumption.
    intros e' [= <-]. now rewrite <- Hv.
  - eexists. split; [reflexivity |].
    destruct (H None) as (Hlen & Hatt & _).
    repeat split; try assumption. discriminate.
Qed.

End ProductionRouter.

(** ** UltimateAI, continued *)

Section UltimateFurther.

Import Ultimate UltimateSpec UltimateMore.

Variable W : Type.

Lemma mem_In (x : string) (keys : list string) :
  mem x keys = true <-> In x keys.
Proof.
  unfold mem. rewrite existsb_exists. split.
  - intros (k & Hk & E). apply String.eqb_eq in E. now subst.
  - intros H. exists x. split; [exact H | apply String.eqb_refl].
Qed.

Lemma choose_provider_nothing_configured (self : UltimateAI W) task_type :
  configured self = [] ->
  _choose_provider self task_type
  = Raise (Exception "No AI providers available").
Proof.
  unfold configured. intros Hnil. apply app_eq_nil in Hnil as [Hf Hw].
  unfold _choose_provider. rewrite Hf, Hw.
  destruct (mem task_type simple_tasks && prefer_free self),
    (mem task_type complex_tasks); reflexivity.
Qed.

Lemma get_fallback_all_failed (self : UltimateAI W) (failed : string) :
  Forall (eq failed) (configured self) -> _get_fallback self failed = None.
Proof.
  unfold _get_fallback. fold (configured self).
  induction 1 as [| k ks Hk _ IH]; cbn [filter]; [reflexivity |].
  subst k. rewrite String.eqb_refl. cbn [negb]. exact IH.
Qed.

(** X11: [_choose_provider] raises exactly when no provider is configured
    and otherwise returns a configured provider; for a task type outside the
    complex ones it returns a free client whenever one is configured, and for
    a complex task type it returns claude_web, or else chatgpt_web, when that
    web client is configured. *)
Theorem choose_provider_spec (self : UltimateAI W) (task_type : string) :
  (configured self = [] ->
     _choose_provider self task_type
     = Raise (Exception "No AI providers available"))
  /\ (configured self <> [] ->
      exists p, _choose_provider self task_type = Ret p
                /\ In p (configured self))
  /\ (mem task_type complex_tasks = false -> free_clients self <> [] ->
      exists p, _choose_provider self task_type = Ret p
                /\ In p (free_clients self))
  /\ (mem task_type complex_tasks = true ->
      (In "claude_web" (web_clients self) ->
       _choose_provider self task_type = Ret "claude_web")
      /\ (~ In "claude_web" (web_clients self) ->
          In "chatgpt_web" (web_clients self) ->
          _choose_provider self task_type = Ret "chatgpt_web")).
Proof.
  unfold configured. split; [| split; [| split]].
  - apply choose_provider_nothing_configured.
  - intros Hne.
    destruct (_choose_provider self task_type) as [p | e] eqn:Hp.
    + exists p. split; [reflexivity |].
      apply in_or_app.
      destruct (choose_provider_configured W self task_type p Hp) as [H | H];
        apply mem_In in H; auto.
    + exfalso. unfold _choose_provider in Hp.
      destruct (free_clients self) as [| k ks] eqn:Hf.
      * destruct (web_clients self) as [| k ks] eqn:Hw; [now apply Hne |].
        change (mem "groq" []) with false in Hp.
        change (mem "gemini" []) with false in Hp.
        destruct (mem task_type simple_tasks && prefer_free self),
          (mem task_type complex_tasks),
          (mem "claude_web" (k :: ks)), (mem "chatgpt_web" (k :: ks));
          cbv iota beta in Hp; discriminate.
      * destruct (mem task_type simple_tasks && prefer_free self),
          (mem task_type complex_tasks),
          (mem "groq" (k :: ks)), (mem "gemini" (k :: ks)),
          (mem "claude_web" (web_clients self)),
          (mem "chatgpt_web" (web_clients self));
          cbv iota beta in Hp; discriminate.
  - intros Hc Hne. unfold _choose_provider. rewrite Hc.
    destruct (free_clients self) as [| k ks] eqn:Hf; [contradiction |].
    destruct (mem task_type simple_tasks && prefer_free self).
    + destruct (mem "groq" (k :: ks)) eqn:E1.
      { exists "groq". split; [reflexivity | now apply mem_In]. }
      destruct (mem "gemini" (k :: ks)) eqn:E2.
      { exists "gemini". split; [reflexivity | now apply mem_In]. }
      exists k. split; [reflexivity | now left].
    + exists k. split; [reflexivity | now left].
  - intros Hc.
    assert (Hs : mem task_type simple_tasks = false).
    { unfold mem, complex_tasks, simple_tasks in *. cbn in Hc |- *.
      rewrite !orb_false_r in *.
      destruct (task_type =? "code")%string eqn:E1;
        [apply String.eqb_eq in E1; subst; discriminate |].
      destruct (task_type =? "general")%string eqn:E2;
        [apply String.eqb_eq in E2; subst; discriminate |].
      destruct (task_type =? "review")%string eqn:E3;
        [apply String.eqb_eq in E3; subst; discriminate |].
      reflexivity. }
    unfold _choose_provider. rewrite Hs, Hc. cbn [andb]. split.
    + intros H. apply mem_In in H. now rewrite H.
    + intros Hn H. apply mem_In in H. rewrite H.
      destruct (mem "claude_web" (web_clients self)) eqn:E; [| reflexivity].
      apply mem_In in E. contradiction.
Qed.

(** X12: the [prefer_free] flag has no effect on the choice of provider for
    any free-client dict that [_init_all_clients] can build. *)
Theorem prefer_free_has_no_effect (self : UltimateAI W) (task_type : string) :
  In (free_clients self) init_free_clients ->
  _choose_provider (with_prefer_free self true) task_type
  = _choose_provider (with_prefer_free self false) task_type.
Proof.
  intros Hin. unfold _choose_provider, with_prefer_free.
  cbn [prefer_free free_clients web_clients].
  rewrite andb_true_r, andb_false_r.
  destruct (mem task_type simple_tasks) eqn:Hs; [| reflexivity].
  assert (Hc : mem task_type complex_tasks = false).
  { unfold mem, complex_tasks, simple_tasks in *. cbn in Hs |- *.
    rewrite !orb_false_r in *.
    destruct (task_type =? "code")%string eqn:E1;
      [apply String.eqb_eq in E1; subst; reflexivity |].
    destruct (task_type =? "general")%string eqn:E2;
      [apply String.eqb_eq in E2; subst; reflexivity |].
    destruct (task_type =? "review")%string eqn:E3;
      [apply String.eqb_eq in E3; subst; reflexivity | discriminate]. }
  rewrite Hc. cbn in Hin.
  destruct Hin as [<- | [<- | [<- | [<- | []]]]]; reflexivity.
Qed.

(** X13: [_get_fallback] returns the first configured provider, free clients
    before web clients, that differs from the failed one, and [None] exactly
    when every configured provider is the failed one. *)
Theorem get_fallback_spec (self : UltimateAI W) (failed : string) :
  match _get_fallback self failed with
  | Some f =>
      f <> failed
      /\ exists before after,
          configured self = (before ++ f :: after)%list
          /\ Forall (eq failed) before
  | None => Forall (eq failed) (configured self)
  end.
Proof.
  unfold _get_fallback. fold (configured self).
  induction (configured self) as [| k ks IH]; cbn [filter]; [constructor |].
  destruct (k =? failed)%string eqn:E; cbn [negb].
  - apply String.eqb_eq in E. subst k.
    destruct (filter _ ks) as [| f fs].
    + now constructor.
    + destruct IH as (Hne & before & after & -> & Hb).
      split; [exact Hne |].
      exists (failed :: before), after. split; [reflexivity | now constructor].
  - apply String.eqb_neq in E. split; [exact E |].
    exists [], ks. split; [reflexivity | constructor].
Qed.

Lemma try_provider_outcome (self : UltimateAI W) p prompt system_prompt w :
  match try_provider self p prompt system_prompt w with
  | (Ret answer, self1, _, calls) =>
      provider answer = p /\ cost answer = 0.0%float /\ calls = [p]
      /\ ((In p (free_clients self) /\ self1 = count_free W self)
          \/ (~ In p (free_clients self) /\ In p (web_clients self)
              /\ self1 = count_web W self))
  | (Raise _, self1, _, _) => self1 = self
  end.
Proof.
  unfold try_provider.
  destruct (mem p (free_clients self)) eqn:Hf.
  - apply mem_In in Hf.
    destruct (_call_free_ai self p prompt system_prompt w) as [[a | e] w1];
      [| reflexivity].
    repeat split. left. auto.
  - assert (Hnf : ~ In p (free_clients self)).
    { intros H. apply mem_In in H. congruence. }
    destruct (mem p (web_clients self)) eqn:Hw; [| reflexivity].
    apply mem_In in Hw.
    destruct (_call_web_interface self p prompt system_prompt w)
      as [[a | e] w1]; [| reflexivity].
    repeat split. right. auto.
Qed.

(** X14: with nothing configured [generate] raises the exception of
    [_choose_provider] without calling anything; with the chosen provider
    being the only one configured, a failing call makes [generate] raise
    All AI providers failed after that single call, the object unchanged. *)
Theorem generate_without_alternative (self : UltimateAI W)
    (prompt system_prompt task_type : string) :
  (configured self = [] ->
   forall depth w,
     generate (S depth) self prompt system_prompt task_type w
     = (Raise (Exception "No AI providers available"), self, w, []))
  /\ (forall p,
        _choose_provider self task_type = Ret p ->
        Forall (eq p) (configured self) ->
        forall depth w,
          provider_fails self p prompt system_prompt w ->
          exists w1,
            generate (S depth) self prompt system_prompt task_type w
            = (Raise (Exception "All AI providers failed"),
               self, w1, [p])).
Proof.
  split.
  - intros Hnil depth w. cbn [generate].
    now rewrite (choose_provider_nothing_configured self task_type Hnil).
  - intros p Hp Hall depth w Hfail.
    pose proof (choose_provider_configured W self task_type p Hp) as Hconf.
    destruct (try_provider_raises W self p prompt system_prompt w Hconf Hfail)
      as (e & w1 & Ht).
    exists w1. cbn [generate]. rewrite Hp, Ht.
    now rewrite (get_fallback_all_failed self p Hall).
Qed.

(** X15: [generate] never changes the configured clients or the flag; a run
    that returns an answer has raised exactly one of the two call counters by
    one (the free counter for a free client, the web counter otherwise), the
    answer names the chosen provider and costs 0.0, and the last call went to
    it; a run that raises, the recursion limit included, leaves the counters
    as they were: failed calls are not counted. *)
Theorem generate_counts_the_answer (self : UltimateAI W)
    (prompt system_prompt task_type : string) (depth : nat) (w : W) :
  let '(r, self', _, calls) :=
    generate depth self prompt system_prompt task_type w in
  remotes self' = remotes self
  /\ prefer_free self' = prefer_free self
  /\ free_clients self' = free_clients self
  /\ web_clients self' = web_clients self
  /\ match r with
     | Ret answer =>
         _choose_provider self task_type = Ret (provider answer)
         /\ cost answer = 0.0%float
         /\ (exists earlier, calls = (earlier ++ [provider answer])%list)
         /\ ((In (provider answer) (free_clients self)
              /\ free_calls self' = free_calls self + 1
              /\ web_calls self' = web_calls self)
             \/ (~ In (provider answer) (free_clients self)
                 /\ free_calls self' = free_calls self
                 /\ web_calls self' = web_calls self + 1))
     | Raise _ =>
         free_calls self' = free_calls self
         /\ web_calls self' = web_calls self
     end.
Proof.
  revert w. induction depth as [| depth IH]; intros w; cbn [generate].
  - repeat split.
  - destruct (_choose_provider self task_type) as [p | e] eqn:Hp;
      [| repeat split].
    pose proof (try_provider_outcome self p prompt system_prompt w) as Ht.
    destruct (try_provider self p prompt system_prompt w)
      as [[[[answer | e] self1] w1] calls].
    + destruct Ht as (Hprov & Hcost & -> & Hcount).
      rewrite Hprov.
      destruct Hcount as [(Hin & ->) | (Hnin & _ & ->)]; cbn;
        repeat split; try assumption; try (exists []; reflexivity).
      * left. auto.
      * right. auto.
    + subst self1.
      destruct (_get_fallback self p) as [f |]; [| repeat split].
      destruct (truthy f); [| repeat split].
      specialize (IH w1).
      destruct (generate depth self prompt system_prompt task_type w1)
        as [[[r self2] w2] calls2].
      destruct IH as (H1 & H2 & H3 & H4 & Hr).
      repeat split; try assumption.
      destruct r as [answer | e']; try exact Hr.
      destruct Hr as (Hc & Hcost & (earlier & ->) & Hcnt).
      repeat split; try assumption.
      exists (calls ++ earlier)%list. now rewrite app_assoc.
Qed.

End UltimateFurther.

Section UltimateFurtherRuns.

Import Ultimate UltimateSpec UltimateMore.

Lemma prefer_free_has_no_effect_witness :
  _choose_provider (with_prefer_free two_free true) "general"
  = _choose_provider (with_prefer_free two_free false) "general".
Proof.
  apply (prefer_free_has_no_effect unit two_free "general"). cbn. tauto.
Defined.

End UltimateFurtherRuns.

(** ** Searching and slicing strings *)

Section StringSearch.

Import PyStrMore.

Lemma prefix_char (c d : ascii) (rest : string) :
  String.prefix (String c EmptyString) (String d rest) = Ascii.eqb d c.
Proof.
  cbn [String.prefix].
  destruct (Ascii.ascii_dec c d) as [-> | Hne].
  - rewrite Ascii.eqb_refl. now destruct rest.
  - symmetry. apply Ascii.eqb_neq. congruence.
Qed.

Lemma has_char_nil (c : ascii) : has_char c "" = false.
Proof. reflexivity. Qed.

Lemma has_char_cons (c d : ascii) (rest : string) :
  has_char c (String d rest) = Ascii.eqb d c || has_char c rest.
Proof. unfold has_char. now rewrite contains_cons, prefix_char. Qed.

Lemma has_char_app (c : ascii) (a b : string) :
  has_char c (a ++ b) = has_char c a || has_char c b.
Proof.
  induction a as [| d a IH]; [reflexivity |].
  cbn [append]. now rewrite !has_char_cons, IH, orb_assoc.
Qed.

Lemma find_char_bounds (c : ascii) (s : string) :
  -1 <= find_char c s < PyStr.len s.
Proof.
  unfold PyStr.len. induction s as [| d s IH]; cbn [find_char String.length].
  - lia.
  - destruct (Ascii.eqb d c); [lia |].
    destruct (find_char c s <? 0) eqn:E; lia.
Qed.

Lemma find_char_absent (c : ascii) (s : string) :
  has_char c s = false <-> find_char c s < 0.
Proof.
  induction s as [| d s IH]; cbn [find_char].
  - rewrite has_char_nil. split; [lia | reflexivity].
  - rewrite has_char_cons. destruct (Ascii.eqb d c); cbn [orb].
    + split; [discriminate | lia].
    + rewrite IH. pose proof (find_char_bounds c s) as Hb.
      destruct (find_char c s <? 0) eqn:E; lia.
Qed.

Lemma find_char_first (c : ascii) (pre rest : string) :
  has_char c pre = false ->
  find_char c (pre ++ String c rest) = PyStr.len pre.
Proof.
  unfold PyStr.len.
  induction pre as [| d pre IH]; cbn [append find_char String.length].
  - intros _. now rewrite Ascii.eqb_refl.
  - rewrite has_char_cons. intros H. apply orb_false_iff in H as [Hd Hp].
    rewrite Hd, (IH Hp).
    destruct (Z.of_nat (String.length pre) <? 0) eqn:E; lia.
Qed.

Lemma find_char_split (c : ascii) (s : string) :
  0 <= find_char c s ->
  exists pre rest, s = pre ++ String c rest /\ has_char c pre = false.
Proof.
  induction s as [| d s IH]; cbn [find_char]; [lia |].
  destruct (Ascii.eqb d c) eqn:Hd.
  - apply Ascii.eqb_eq in Hd. subst d. intros _.
    exists "", s. split; reflexivity.
  - destruct (find_char c s <? 0) eqn:E; [lia |]. intros _.
    destruct IH as (pre & rest & -> & Hp); [lia |].
    exists (String d pre), rest. split; [reflexivity |].
    now rewrite has_char_cons, Hd, Hp.
Qed.

Lemma rfind_char_bounds (c : ascii) (s : string) :
  -1 <= rfind_char c s < PyStr.len s.
Proof.
  unfold PyStr.len. induction s as [| d s IH]; cbn [rfind_char String.length].
  - lia.
  - destruct (0 <=? rfind_char c s) eqn:E; [lia |].
    destruct (Ascii.eqb d c); lia.
Qed.

Lemma rfind_char_absent (c : ascii) (s : string) :
  has_char c s = false <-> rfind_char c s < 0.
Proof.
  induction s as [| d s IH]; cbn [rfind_char].
  - rewrite has_char_nil. split; [lia | reflexivity].
  - rewrite has_char_cons. pose proof (rfind_char_bounds c s) as Hb.
    destruct (0 <=? rfind_char c s) eqn:E.
    + split; [| lia]. intros H. apply orb_false_iff in H as [_ H].
      apply IH in H. lia.
    + assert (Hs : has_char c s = false) by (apply IH; lia).
      rewrite Hs, orb_false_r.
      destruct (Ascii.eqb d c); split; (lia || discriminate || reflexivity).
Qed.

Lemma rfind_char_app (c : ascii) (a b : string) :
  rfind_char c (a ++ b)
  = if has_char c b then PyStr.len a + rfind_char c b else rfind_char c a.
Proof.
  unfold PyStr.len.
  induction a as [| d a IH]; cbn [append rfind_char String.length].
  - destruct (has_char c b) eqn:Hb; [lia |].
    apply rfind_char_absent in Hb. pose proof (rfind_char_bounds c b). lia.
  - rewrite IH. destruct (has_char c b) eqn:Hb.
    + assert (0 <= rfind_char c b).
      { destruct (Z_lt_ge_dec (rfind_char c b) 0) as [Hlt | Hge]; [| lia].
        apply rfind_char_absent in Hlt. congruence. }
      replace (0 <=? Z.of_nat (String.length a) + rfind_char c b) with true
        by lia.
      lia.
    + reflexivity.
Qed.

Lemma rfind_char_last (c : ascii) (x post : string) :
  has_char c post = false ->
  rfind_char c (x ++ String c post) = PyStr.len x.
Proof.
  intros Hp. rewrite rfind_char_app, has_char_cons, Ascii.eqb_refl.
  cbn [orb rfind_char].
  apply rfind_char_absent in Hp.
  replace (0 <=? rfind_char c post) with false by lia.
  rewrite Ascii.eqb_refl. lia.
Qed.

Lemma substring_all (body post : string) :
  substring 0 (String.length body) (body ++ post) = body.
Proof.
  induction body as [| d body IH]; cbn.
  - now destruct post.
  - now rewrite IH.
Qed.

Lemma slice_middle (pre body post : string) :
  slice (pre ++ body ++ post) (PyStr.len pre) (PyStr.len pre + PyStr.len body)
  = body.
Proof.
  unfold slice, PyStr.len.
  replace (Z.of_nat (String.length pre) + Z.of_nat (String.length body)
           - Z.of_nat (String.length pre))
    with (Z.of_nat (String.length body)) by lia.
  rewrite !Nat2Z.id.
  induction pre as [| d pre IH]; cbn [append String.length substring].
  - apply substring_all.
  - exact IH.
Qed.

End StringSearch.

(** ** UltimateAI.generate_plan *)

Section PlanProperties.

Import PyStrMore UltimatePlan.

Variable J : Type.
Variable json_loads : string -> option J.

(** X16: the [plan] key of [generate_plan].  A text that is [None] gets the
    default plan.  A text with a bracket pair gets what [json.loads] makes of
    the span from its first opening bracket to its last closing bracket, both
    included, or the default plan when that does not parse.  The key is
    absent exactly when the text has no opening bracket or has no closing
    bracket after its first opening one. *)
Theorem plan_of_text_spec :
  plan_of_text json_loads None = Some DefaultPlan
  /\ (forall pre mid post,
        has_char "["%char pre = false -> has_char "]"%char post = false ->
        plan_of_text json_loads (Some (pre ++ "[" ++ mid ++ "]" ++ post))
        = Some match json_loads ("[" ++ mid ++ "]") with
               | Some parsed => Parsed parsed
               | None => DefaultPlan
               end)
  /\ (forall t,
        plan_of_text json_loads (Some t) = None
        <-> (has_char "["%char t = false
             \/ exists pre rest,
                 t = pre ++ "[" ++ rest
                 /\ has_char "["%char pre = false
                 /\ has_char "]"%char rest = false)).
Proof.
  split; [reflexivity |]. split.
  - intros pre mid post Hpre Hpost. unfold plan_of_text.
    change (pre ++ "[" ++ mid ++ "]" ++ post)
      with (pre ++ String "["%char (mid ++ String "]"%char post)).
    rewrite (find_char_first "["%char pre _ Hpre).
    assert (Hr : rfind_char "]"%char
                   (pre ++ String "["%char (mid ++ String "]"%char post))
                 = PyStr.len pre + 1 + PyStr.len mid).
    { change (pre ++ String "["%char (mid ++ String "]"%char post))
        with (pre ++ (String "["%char mid) ++ String "]"%char post).
      rewrite <- string_app_assoc, (rfind_char_last "]"%char _ post Hpost).
      unfold PyStr.len. rewrite length_app. cbn [String.length]. lia. }
    rewrite Hr.
    assert (Hc : (0 <=? PyStr.len pre)
                 && (PyStr.len pre <? PyStr.len pre + 1 + PyStr.len mid + 1)
                 = true).
    { unfold PyStr.len. apply andb_true_iff.
      split; [apply Z.leb_le | apply Z.ltb_lt]; lia. }
    rewrite Hc.
    assert (Hs : slice (pre ++ String "["%char (mid ++ String "]"%char post))
                   (PyStr.len pre) (PyStr.len pre + 1 + PyStr.len mid + 1)
                 = "[" ++ mid ++ "]").
    { replace (PyStr.len pre + 1 + PyStr.len mid + 1)
        with (PyStr.len pre + PyStr.len ("[" ++ mid ++ "]")).
      - change (pre ++ String "["%char (mid ++ String "]"%char post))
          with (pre ++ String "["%char (mid ++ "]" ++ post)).
        replace (String "["%char (mid ++ "]" ++ post))
          with (("[" ++ mid ++ "]") ++ post)
          by (cbn [append]; now rewrite string_app_assoc).
        apply slice_middle.
      - unfold PyStr.len. cbn [append String.length].
        rewrite length_app. cbn [String.length]. lia. }
    rewrite Hs. now destruct (json_loads ("[" ++ mid ++ "]")).
  - intros t. unfold plan_of_text.
    pose proof (find_char_bounds "["%char t) as Hfb.
    destruct (0 <=? find_char "["%char t) eqn:Hstart; cbn [andb].
    + destruct (find_char_split "["%char t) as (pre & rest & -> & Hpre);
        [lia |].
      rewrite (find_char_first "["%char pre rest Hpre).
      rewrite rfind_char_app, has_char_cons. cbn [Ascii.eqb Bool.eqb orb].
      destruct (has_char "]"%char rest) eqn:Hrest.
      * assert (Hge : 0 <= rfind_char "]"%char rest).
        { destruct (Z_lt_ge_dec (rfind_char "]"%char rest) 0) as [Hlt | Hge];
            [| lia].
          apply rfind_char_absent in Hlt. congruence. }
        cbn [rfind_char]. replace (0 <=? rfind_char "]"%char rest) with true
          by (symmetry; apply Z.leb_le; lia).
        replace (PyStr.len pre <? PyStr.len pre + (rfind_char "]"%char rest + 1) + 1)
          with true by (symmetry; apply Z.ltb_lt; lia).
        split.
        -- destruct (json_loads _); discriminate.
        -- intros [H | (pre' & rest' & Heq & Hpre' & Hrest')].
           ++ rewrite has_char_app, has_char_cons in H.
              cbn [Ascii.eqb Bool.eqb] in H.
              rewrite orb_true_r in H. discriminate.
           ++ exfalso.
              change (pre' ++ "[" ++ rest') with (pre' ++ String "["%char rest')
                in Heq.
              assert (Hlen : PyStr.len pre = PyStr.len pre').
              { rewrite <- (find_char_first "["%char pre rest Hpre),
                  <- (find_char_first "["%char pre' rest' Hpre').
                now rewrite Heq. }
              assert (Hh : has_char "]"%char (pre ++ String "["%char rest)
                           = has_char "]"%char (pre' ++ String "["%char rest'))
                by now rewrite Heq.
              assert (Hr : rfind_char "]"%char (pre ++ String "["%char rest)
                           = rfind_char "]"%char (pre' ++ String "["%char rest'))
                by now rewrite Heq.
              rewrite !rfind_char_app, !has_char_cons in Hr.
              cbn [Ascii.eqb Bool.eqb orb] in Hr.
              rewrite Hrest, Hrest' in Hr.
              cbn [rfind_char] in Hr.
              replace (0 <=? rfind_char "]"%char rest) with true in Hr
                by (symmetry; apply Z.leb_le; lia).
              pose proof (rfind_char_bounds "]"%char pre') as Hb. lia.
      * pose proof (rfind_char_bounds "]"%char pre) as Hb.
        replace (PyStr.len pre <? rfind_char "]"%char pre + 1) with false
          by (symmetry; apply Z.ltb_ge; lia).
        split; [| reflexivity]. intros _. right.
        exists pre, rest. auto.
    + split; [| reflexivity]. intros _. left.
      apply find_char_absent. lia.
Qed.

End PlanProperties.

(** ** ClaudeClient.generate_structured *)

Section StructuredProperties.

Variable W : Type.
Variable J : Type.
Variable json_loads : string -> res J.

(** X17: [generate_structured] makes the one remote call of [generate].  It
    raises exactly when the remote call returned a text on which [json.loads]
    raises something other than [JSONDecodeError], and then it raises that
    exception; in every other case it returns a result.  A result carries the
    model id; a success result carries the content and, as [structured_data],
    what [json.loads] made of it; when [json.loads] raises [JSONDecodeError]
    the result is a failure with the fixed error message that still carries
    the content and the usage; when the remote call raises the result is the
    failure dict of [generate]. *)
Theorem generate_structured_spec (c : ClaudeClient W)
    (prompt schema : string) (max_tokens : Z) (w : W) :
  let remote :=
    claude_client c claude_default_model max_tokens 0.3%float
      (structured_prompt prompt schema) w in
  let run :=
    ClaudeClient_generate_structured json_loads c prompt schema max_tokens w in
  snd run = snd remote
  /\ (forall e,
        fst run = Raise e
        <-> (exists response text others,
               fst remote = Ret response
               /\ cr_content response = text :: others
               /\ json_loads text = Raise e)
            /\ forall msg, e <> JSONDecodeError msg)
  /\ ((forall text e,
         json_loads text = Raise e -> exists msg, e = JSONDecodeError msg) ->
      exists r, fst run = Ret r)
  /\ (forall r,
        fst run = Ret r ->
        sr_model r = Some claude_default_model
        /\ (sr_success r = true ->
            exists content parsed,
              sr_content r = Some content
              /\ json_loads content = Ret parsed
              /\ sr_structured_data r = Some parsed /\ sr_error r = None)
        /\ (sr_success r = false ->
            sr_structured_data r = None /\ exists e, sr_error r = Some e)
        /\ (forall response text others msg,
              fst remote = Ret response ->
              cr_content response = text :: others ->
              json_loads text = Raise (JSONDecodeError msg) ->
              r = mkStructuredResult J false (Some text)
                    (Some claude_default_model)
                    (Some [("input_tokens", cr_input_tokens response);
                           ("output_tokens", cr_output_tokens response)])
                    (Some "Failed to parse structured response") None)
        /\ (forall e,
              fst remote = Raise e ->
              r = mkStructuredResult J false None (Some claude_default_model)
                    None (Some (str_exn e)) None)).
Proof.
  intros remote run. subst remote run.
  unfold ClaudeClient_generate_structured, ClaudeClient_generate, bind,
    try_except, index0, ret, raise, getitem.
  destruct (claude_client c claude_default_model max_tokens 0.3%float
              (structured_prompt prompt schema) w) as [[response | e] w1].
  - destruct (cr_content response) as [| text others] eqn:Hc; cbn.
    + split; [reflexivity |]. split; [| split; [eauto |]].
      * intros e. split; [discriminate |].
        intros [(response' & text' & others' & [= <-] & Hc' & _) _].
        rewrite Hc in Hc'. discriminate.
      * intros r [= <-]. cbn.
        split; [reflexivity |]. split; [discriminate |]. split; [eauto |].
        split; [| discriminate].
        intros response' text' others' msg [= <-]. rewrite Hc. discriminate.
    + destruct (json_loads text) as [parsed | e] eqn:Hj.
      * cbn. split; [reflexivity |]. split; [| split; [eauto |]].
        -- intros e. split; [discriminate |].
           intros [(response' & text' & others' & [= <-] & Hc' & Hj') _].
           rewrite Hc in Hc'. injection Hc' as <- <-. congruence.
        -- intros r [= <-]. cbn.
           split; [reflexivity |].
           split; [intros _; exists text, parsed; auto |].
           split; [discriminate |]. split; [| discriminate].
           intros response' text' others' msg [= <-]. rewrite Hc.
           intros [= <- <-]. congruence.
      * assert (Hraised : forall e',
                  (exists response' text' others',
                     Ret response = Ret response'
                     /\ cr_content response' = text' :: others'
                     /\ json_loads text' = Raise e') -> e' = e).
        { intros e' (response' & text' & others' & [= <-] & Hc' & Hj').
          rewrite Hc in Hc'. injection Hc' as <- <-. congruence. }
        destruct e as [m | k | m | m | m | m]; cbn;
          (split; [reflexivity |]).
        4: { split; [| split; [eauto |]].
             - intros e'. split; [discriminate |].
               intros [He' Hne]. apply Hraised in He'. now apply Hne in He'.
             - intros r [= <-]. cbn.
               split; [reflexivity |]. split; [discriminate |].
               split; [eauto |]. split; [| discriminate].
               intros response' text' others' msg [= <-]. rewrite Hc.
               intros [= <- <-] _. reflexivity. }
        all: (split; [| split; [| intros r; discriminate]]);
          [ intros e'; split;
            [ intros [= <-]; split;
              [exists response, text, others; auto | discriminate]
            | intros [He' _]; apply Hraised in He'; now subst e' ]
          | intros Honly; destruct (Honly _ _ Hj) as [msg Hmsg];
            discriminate ].
  - cbn. split; [reflexivity |]. split; [| split; [eauto |]].
    + intros e'. split; [discriminate |].
      intros [(response' & text' & others' & Hr & _) _]. discriminate.
    + intros r [= <-]. cbn.
      split; [reflexivity |]. split; [discriminate |]. split; [eauto |].
      split; [discriminate |].
      intros e' [= <-]. reflexivity.
Qed.

End StructuredProperties.

(** ** API keys *)

Section ApiKeyProperties.

Import ApiKeys.

Variable sha256_hex : string -> string.

Lemma lookup_store_set (h : string) (kd : KeyData) (db : Store) :
  lookup h (store_set h kd db) = Some kd.
Proof.
  induction db as [| [h' old] rest IH]; cbn.
  - now rewrite String.eqb_refl.
  - destruct (h' =? h)%string eqn:E; cbn; now rewrite E.
Qed.

Lemma lookup_store_set_other (h h' : string) (kd : KeyData) (db : Store) :
  h' <> h -> lookup h' (store_set h kd db) = lookup h' db.
Proof.
  intros Hne. induction db as [| [k old] rest IH]; cbn.
  - apply String.eqb_neq in Hne. rewrite String.eqb_sym in Hne. now rewrite Hne.
  - destruct (k =? h)%string eqn:E; cbn.
    + apply String.eqb_eq in E. subst k.
      destruct (h =? h')%string eqn:E'; [| reflexivity].
      apply String.eqb_eq in E'. congruence.
    + now rewrite IH.
Qed.

Lemma lookup_In (h : string) (kd : KeyData) (db : Store) :
  lookup h db = Some kd -> In (h, kd) db.
Proof.
  induction db as [| [k old] rest IH]; cbn; [discriminate |].
  destruct (k =? h)%string eqn:E.
  - apply String.eqb_eq in E. intros [= <-]. left. now subst.
  - intros H. right. auto.
Qed.

Lemma Forall_store_set (P : KeyData -> Prop) (h : string) (kd : KeyData)
    (db : Store) :
  Forall (fun entry => P (snd entry)) db -> P kd ->
  Forall (fun entry => P (snd entry)) (store_set h kd db).
Proof.
  intros Hdb Hkd. induction Hdb as [| [k old] rest Hold Hrest IH]; cbn.
  - constructor; [exact Hkd | constructor].
  - destruct (k =? h)%string; constructor; assumption.
Qed.

Lemma within_limit_reset (kd : KeyData) (t : Z) :
  within_limit kd -> within_limit (set_usage kd 0 t).
Proof.
  intros _. split; cbn; [lia |]. intros limit _ Hpos. lia.
Qed.

(** X18: [verify_api_key] answers with the key data or with status 401 or
    429, and it keeps every stored counter non-negative and within its
    positive limit; an accepted key has been counted (its counter is at least
    1) and the data returned is the data now stored; status 429 is given
    only under a limit that is set and not 0. *)
Theorem verify_keeps_within_limit (api_key : option string)
    (now1 now2 now3 : Z) (db : Store) :
  Forall (fun entry => within_limit (snd entry)) db ->
  let '(answer, db') := verify_api_key sha256_hex api_key now1 now2 now3 db in
  Forall (fun entry => within_limit (snd entry)) db'
  /\ match answer with
     | inr kd =>
         within_limit kd /\ 1 <= kd_usage_count kd
         /\ kd_last_used kd = Some now3
         /\ exists k, api_key = Some k
                      /\ lookup (sha256_hex k) db' = Some kd
     | inl e =>
         (status_of e = 401 /\ db' = db)
         \/ (status_of e = 429
             /\ exists k kd limit,
                 api_key = Some k
                 /\ lookup (sha256_hex k) db' = Some kd
                 /\ kd_rate_limit kd = Some limit /\ limit <> 0
                 /\ limit <= kd_usage_count kd)
     end.
Proof.
  intros Hdb. unfold verify_api_key.
  destruct api_key as [k |]; [| split; [exact Hdb | left; now split]].
  destruct (Ultimate.truthy k); cbn [negb];
    [| split; [exact Hdb | left; now split]].
  destruct (lookup (sha256_hex k) db) as [kd |] eqn:Hl;
    [| split; [exact Hdb | left; now split]].
  destruct (expired kd now1); [split; [exact Hdb | left; now split] |].
  assert (Hkd : within_limit kd).
  { apply lookup_In in Hl. rewrite Forall_forall in Hdb.
    exact (Hdb _ Hl). }
  set (kd1 := if kd_last_reset kd <? floor_hour now2
              then set_usage kd 0 (floor_hour now2) else kd).
  assert (Hkd1 : within_limit kd1).
  { subst kd1. destruct (kd_last_reset kd <? floor_hour now2);
      [now apply within_limit_reset | exact Hkd]. }
  destruct (limit_reached kd1) eqn:Hlim.
  - split; [now apply Forall_store_set |].
    right. split; [reflexivity |].
    unfold limit_reached in Hlim.
    destruct (kd_rate_limit kd1) as [limit |] eqn:Hrl; [| discriminate].
    apply andb_true_iff in Hlim as [Hnz Hge].
    exists k, kd1, limit. split; [reflexivity |].
    split; [apply lookup_store_set |]. split; [exact Hrl |].
    split; [| lia].
    intros ->. discriminate.
  - assert (Hnew : within_limit (set_used kd1 (kd_usage_count kd1 + 1) now3)).
    { destruct Hkd1 as [Hnn Hle]. split; cbn; [lia |].
      intros limit Hrl Hpos. unfold limit_reached in Hlim. rewrite Hrl in Hlim.
      apply andb_false_iff in Hlim as [Hz | Hlt].
      - apply negb_false_iff in Hz. lia.
      - apply Z.leb_gt in Hlt. lia. }
    split; [now apply Forall_store_set |].
    split; [exact Hnew |]. split; [cbn; destruct Hkd1; lia |].
    split; [reflexivity |].
    exists k. split; [reflexivity | apply lookup_store_set].
Qed.

(** The calls still allowed in hour [H] under limit [n]. *)
Lemma verify_step (k : string) (n H now1 now2 now3 : Z) (db : Store)
    (kd : KeyData) :
  lookup (sha256_hex k) db = Some kd ->
  kd_rate_limit kd = Some n -> 0 < n ->
  0 <= kd_usage_count kd <= n ->
  floor_hour now2 = H ->
  let allowance kd :=
    if kd_last_reset kd <? H then n else n - kd_usage_count kd in
  let '(answer, db') :=
    verify_api_key sha256_hex (Some k) now1 now2 now3 db in
  exists kd',
    lookup (sha256_hex k) db' = Some kd'
    /\ kd_rate_limit kd' = Some n
    /\ 0 <= kd_usage_count kd' <= n
    /\ accepted_count [answer] + allowance kd' <= allowance kd.
Proof.
  intros Hl Hrl Hpos Hu HH allowance. unfold verify_api_key.
  assert (Hsame : exists kd',
             lookup (sha256_hex k) db = Some kd'
             /\ kd_rate_limit kd' = Some n
             /\ 0 <= kd_usage_count kd' <= n
             /\ accepted_count [inl (mkHTTPException 401 "API key required")]
                + allowance kd' <= allowance kd).
  { exists kd. repeat split; try assumption; try lia.
    unfold accepted_count. cbn [filter List.length]. lia. }
  destruct (Ultimate.truthy k); cbn [negb]; [| exact Hsame].
  rewrite Hl.
  destruct (expired kd now1); [exact Hsame |]. clear Hsame.
  rewrite HH. subst allowance. cbn beta.
  unfold accepted_count, limit_reached.
  destruct (kd_last_reset kd <? H) eqn:Hreset.
  - cbn [set_usage kd_rate_limit kd_usage_count]. rewrite Hrl.
    replace (n =? 0) with false by lia.
    replace (n <=? 0) with false by lia. cbn [negb andb].
    eexists. split; [apply lookup_store_set |].
    cbn [set_used set_usage kd_rate_limit kd_usage_count kd_last_reset
         filter List.length].
    rewrite Z.ltb_irrefl. repeat split; try assumption; lia.
  - rewrite Hrl.
    replace (n =? 0) with false by lia. cbn [negb andb].
    destruct (n <=? kd_usage_count kd) eqn:Hfull.
    + eexists. split; [apply lookup_store_set |].
      rewrite Hreset. cbn [filter List.length].
      repeat split; try assumption; lia.
    + eexists. split; [apply lookup_store_set |].
      cbn [set_used kd_rate_limit kd_usage_count kd_last_reset
           filter List.length].
      rewrite Hreset. repeat split; try assumption; lia.
Qed.

Lemma accepted_within_allowance (k : string) (n H : Z) :
  0 < n ->
  forall readings db kd,
    lookup (sha256_hex k) db = Some kd ->
    kd_rate_limit kd = Some n ->
    0 <= kd_usage_count kd <= n ->
    Forall (fun r => floor_hour (snd (fst r)) = H) readings ->
    accepted_count (fst (verify_each sha256_hex k readings db))
    <= if kd_last_reset kd <? H then n else n - kd_usage_count kd.
Proof.
  intros Hpos readings.
  induction readings as [| [[now1 now2] now3] later IH];
    intros db kd Hl Hrl Hu Hh.
  - unfold accepted_count. cbn [verify_each fst filter List.length].
    destruct (kd_last_reset kd <? H); lia.
  - inversion Hh as [| ? ? Hnow Hlater]. cbn [fst snd] in Hnow.
    cbn [verify_each].
    pose proof (verify_step k n H now1 now2 now3 db kd Hl Hrl Hpos Hu Hnow)
      as Hstep.
    cbv zeta in Hstep.
    destruct (verify_api_key sha256_hex (Some k) now1 now2 now3 db)
      as [answer db1].
    destruct Hstep as (kd1 & Hl1 & Hrl1 & Hu1 & Hle).
    specialize (IH db1 kd1 Hl1 Hrl1 Hu1 Hlater).
    destruct (verify_each sha256_hex k later db1) as [answers db2].
    cbn [fst] in IH |- *.
    unfold accepted_count in *. cbn [filter] in Hle |- *.
    destruct answer; cbn [List.length] in Hle |- *; lia.
Qed.

(** X19: the rate limit.  For a key stored with a positive limit [n] and a
    counter between 0 and [n], any number of verifications whose clock
    readings fall in one and the same hour accepts the key at most [n]
    times. *)
Theorem at_most_limit_per_hour (k : string) (n H : Z)
    (readings : list (Z * Z * Z)) (db : Store) (kd : KeyData) :
  lookup (sha256_hex k) db = Some kd ->
  kd_rate_limit kd = Some n -> 0 < n ->
  0 <= kd_usage_count kd <= n ->
  Forall (fun r => floor_hour (snd (fst r)) = H) readings ->
  accepted_count (fst (verify_each sha256_hex k readings db)) <= n.
Proof.
  intros Hl Hrl Hpos Hu Hh.
  pose proof (accepted_within_allowance k n H Hpos readings db kd Hl Hrl Hu Hh)
    as Hgen.
  destruct (kd_last_reset kd <? H); lia.
Qed.

(** X20: a key made by [create_api_key] is stored unused under the hash of
    [genesis_] followed by the token; as long as it has not expired (365 days
    after creation) and its limit, if any, is not negative, verifying it
    succeeds and returns its name, permissions and limit with the counter
    at 1. *)
Theorem created_key_verifies (name : string) (permissions : list string)
    (rate_limit : option Z) (token : string) (c1 c2 c3 t1 t2 t3 : Z)
    (db : Store) :
  (forall n, rate_limit = Some n -> 0 <= n) ->
  t1 <= c1 + days 365 ->
  let '(kd, db1) :=
    create_api_key sha256_hex name permissions rate_limit token c1 c2 c3 db in
  kd_key kd = "genesis_" ++ token
  /\ kd_usage_count kd = 0
  /\ lookup (sha256_hex (kd_key kd)) db1 = Some kd
  /\ exists kd',
       verify_api_key sha256_hex (Some (kd_key kd)) t1 t2 t3 db1
       = (inr kd', store_set (sha256_hex (kd_key kd)) kd' db1)
       /\ kd_name kd' = name /\ kd_permissions kd' = permissions
       /\ kd_rate_limit kd' = rate_limit
       /\ kd_usage_count kd' = 1 /\ kd_last_used kd' = Some t3.
Proof.
  intros Hlimit Hexp. unfold create_api_key.
  cbn [kd_key kd_usage_count].
  split; [reflexivity |]. split; [reflexivity |].
  split; [apply lookup_store_set |].
  unfold verify_api_key.
  change (Ultimate.truthy ("genesis_" ++ token)) with true. cbn [negb].
  rewrite lookup_store_set.
  unfold expired. cbn [kd_expires_at].
  replace (c1 + days 365 <? t1) with false by lia.
  cbn [kd_last_reset].
  assert (Hfree : forall u r,
             limit_reached
               (mkKeyData ("genesis_" ++ token) name permissions rate_limit
                  c2 (Some (c1 + days 365)) 0 u r) = false).
  { intros u r. unfold limit_reached. cbn [kd_rate_limit kd_usage_count].
    destruct rate_limit as [n |]; [| reflexivity].
    specialize (Hlimit n eq_refl).
    destruct (n =? 0) eqn:E; [reflexivity |]. cbn [negb andb]. lia. }
  destruct (floor_hour c3 <? floor_hour t2).
  - unfold set_usage. cbn [kd_key kd_name kd_permissions kd_rate_limit
                           kd_created_at kd_expires_at kd_last_used].
    rewrite Hfree. eexists. split; [reflexivity |]. cbn. auto.
  - rewrite Hfree. eexists. split; [reflexivity |]. cbn. auto.
Qed.

End ApiKeyProperties.

Section ApiKeyDeletion.

Import ApiKeys.

Lemma fold_store_del (hashes : list string) (db : Store) :
  fold_left (fun store key_hash => store_del key_hash store) hashes db
  = filter (fun entry => negb (existsb (String.eqb (fst entry)) hashes)) db.
Proof.
  revert db. induction hashes as [| h hs IH]; intros db; cbn [fold_left].
  - induction db as [| e db IHdb]; cbn [filter existsb negb];
      [reflexivity | f_equal; exact IHdb].
  - rewrite IH. unfold store_del.
    induction db as [| e db IHdb]; cbn [filter existsb]; [reflexivity |].
    destruct (fst e =? h)%string eqn:E1; cbn [negb orb]; [exact IHdb |].
    cbn [filter].
    destruct (existsb (String.eqb (fst e)) hs); cbn [negb];
      [exact IHdb | f_equal; exact IHdb].
Qed.

Lemma NoDup_fst_eq (db : Store) (e e' : string * KeyData) :
  NoDup (map fst db) -> In e db -> In e' db -> fst e = fst e' -> e = e'.
Proof.
  induction db as [| x db IH]; cbn; [contradiction |].
  intros Hnd He He' Hf. inversion Hnd as [| ? ? Hnotin Hnd']; subst.
  destruct He as [-> | He], He' as [-> | He'].
  - reflexivity.
  - exfalso. apply Hnotin. rewrite Hf. now apply in_map.
  - exfalso. apply Hnotin. rewrite <- Hf. now apply in_map.
  - auto.
Qed.

(** X21: in a store whose hashes are distinct, [delete_api_key] removes
    exactly the entries with the given name and keeps the others in order;
    it answers 404, leaving the store as it is, exactly when no entry has
    that name. *)
Theorem delete_api_key_spec (key_name : string) (db : Store) :
  NoDup (map fst db) ->
  let '(answer, db') := delete_api_key key_name db in
  db' = filter (fun entry => negb (kd_name (snd entry) =? key_name)%string) db
  /\ (answer = inl (mkHTTPException 404 "API key not found")
      \/ answer = inr "API key deleted successfully")
  /\ (answer = inl (mkHTTPException 404 "API key not found")
      <-> Forall (fun entry => kd_name (snd entry) <> key_name) db).
Proof.
  intros Hnd. unfold delete_api_key.
  set (named := filter (fun entry => (kd_name (snd entry) =? key_name)%string)
                  db).
  assert (Hfilter :
            filter (fun entry =>
                      negb (existsb (String.eqb (fst entry)) (map fst named)))
                   db
            = filter (fun entry =>
                        negb (kd_name (snd entry) =? key_name)%string) db).
  { apply filter_ext_in. intros e He. f_equal.
    destruct (kd_name (snd e) =? key_name)%string eqn:En.
    - apply existsb_exists. exists (fst e). split; [| apply String.eqb_refl].
      apply in_map. apply filter_In. auto.
    - destruct (existsb (String.eqb (fst e)) (map fst named)) eqn:Ex;
        [| reflexivity].
      apply existsb_exists in Ex as (h & Hh & Heq).
      apply String.eqb_eq in Heq.
      apply in_map_iff in Hh as (e' & <- & He').
      apply filter_In in He' as [He' Hn'].
      rewrite (NoDup_fst_eq db e e' Hnd He He' Heq) in En. congruence. }
  assert (Hmem : forall e, In e named <-> In e db /\ kd_name (snd e) = key_name).
  { intros e. unfold named. rewrite filter_In, String.eqb_eq. tauto. }
  assert (Hnone : named = [] <->
                  Forall (fun entry => kd_name (snd entry) <> key_name) db).
  { split.
    - intros Hnil. apply Forall_forall. intros e He Hn.
      assert (Hin : In e named) by (apply Hmem; auto).
      rewrite Hnil in Hin. contradiction.
    - intros Hall. clearbody named.
      destruct named as [| e rest]; [reflexivity |].
      assert (Hin : In e (e :: rest)) by now left.
      apply Hmem in Hin as [He Hn].
      rewrite Forall_forall in Hall. now apply Hall in He. }
  destruct (map fst named) as [| h hs] eqn:Hm.
  - assert (Hnil : named = []) by (destruct named; [reflexivity | discriminate]).
    cbn [existsb negb] in Hfilter.
    split; [| split].
    + rewrite <- Hfilter. clear.
      induction db as [| e db IH]; cbn [filter negb];
        [reflexivity | f_equal; exact IH].
    + now left.
    + split; [intros _; now apply Hnone | reflexivity].
  - split; [| split].
    + rewrite fold_store_del. exact Hfilter.
    + now right.
    + split; [discriminate |].
      intros Hall. apply Hnone in Hall. rewrite Hall in Hm. discriminate.
Qed.

End ApiKeyDeletion.

Section ApiKeyRuns.

Import ApiKeys.

Lemma limited_store_within_limit :
  Forall (fun entry => within_limit (snd entry)) [("genesis_t", limited)].
Proof.
  constructor; [| constructor]. split; cbn; [lia |].
  intros limit [= <-] _. lia.
Qed.

Lemma verify_keeps_within_limit_witness :
  let '(answer, db') :=
    verify_api_key plain (Some "genesis_t") 10 20 30 [("genesis_t", limited)]
  in
  Forall (fun entry => within_limit (snd entry)) db'
  /\ match answer with
     | inr kd =>
         within_limit kd /\ 1 <= kd_usage_count kd
         /\ kd_last_used kd = Some 30
         /\ exists k, Some "genesis_t" = Some k
                      /\ lookup (plain k) db' = Some kd
     | inl e =>
         (status_of e = 401 /\ db' = [("genesis_t", limited)])
         \/ (status_of e = 429
             /\ exists k kd limit,
                 Some "genesis_t" = Some k
                 /\ lookup (plain k) db' = Some kd
                 /\ kd_rate_limit kd = Some limit /\ limit <> 0
                 /\ limit <= kd_usage_count kd)
     end.
Proof.
  exact (verify_keeps_within_limit plain (Some "genesis_t") 10 20 30
           [("genesis_t", limited)] limited_store_within_limit).
Defined.

Lemma at_most_limit_per_hour_witness :
  accepted_count
    (fst (verify_each plain "genesis_t" [(1, 2, 3); (4, 5, 6); (7, 8, 9)]
            [("genesis_t", limited)])) <= 2.
Proof.
  refine (at_most_limit_per_hour plain "genesis_t" 2 0
            [(1, 2, 3); (4, 5, 6); (7, 8, 9)] [("genesis_t", limited)] limited
            eq_refl eq_refl _ _ _).
  - lia.
  - cbn [limited kd_usage_count]. lia.
  - repeat constructor.
Defined.

Lemma created_key_verifies_witness :
  let '(kd, db1) :=
    create_api_key plain "ci" ["generate"] (Some 2) "t" 0 0 0 [] in
  kd_key kd = "genesis_" ++ "t"
  /\ kd_usage_count kd = 0
  /\ lookup (plain (kd_key kd)) db1 = Some kd
  /\ exists kd',
       verify_api_key plain (Some (kd_key kd)) 10 20 30 db1
       = (inr kd', store_set (plain (kd_key kd)) kd' db1)
       /\ kd_name kd' = "ci" /\ kd_permissions kd' = ["generate"]
       /\ kd_rate_limit kd' = Some 2
       /\ kd_usage_count kd' = 1 /\ kd_last_used kd' = Some 30.
Proof.
  refine (created_key_verifies plain "ci" ["generate"] (Some 2) "t"
            0 0 0 10 20 30 [] _ _).
  - intros n [= <-]. lia.
  - unfold days. lia.
Defined.

Lemma delete_api_key_witness :
  let '(answer, db') := delete_api_key "ci" [("genesis_t", limited)] in
  db' = filter (fun entry => negb (kd_name (snd entry) =? "ci")%string)
          [("genesis_t", limited)]
  /\ (answer = inl (mkHTTPException 404 "API key not found")
      \/ answer = inr "API key deleted successfully")
  /\ (answer = inl (mkHTTPException 404 "API key not found")
      <-> Forall (fun entry => kd_name (snd entry) <> "ci")
            [("genesis_t", limited)]).
Proof.
  refine (delete_api_key_spec "ci" [("genesis_t", limited)] _).
  constructor; [| constructor]. cbn. tauto.
Defined.

End ApiKeyRuns.
